(** * Gemini StudyPal: the generation pipeline of [app.py]

    A shallow embedding of the Streamlit script [src/app.py]: the cached
    wrapper [generate_content], the session state, the "Analyze" trigger and
    the four result panels.  The remote model, [json.loads] and [Image.open]
    are library code; they enter the development as Section variables.

    Conventions.
    - A Python [str] is a [string] whose characters stand for code points
      below 256.
    - The value returned by [json.loads] is a [pyval]; JSON [null] and
      Python [None] are the same value [PNone], as in Python.
    - A JSON object is an association list in insertion order (the order
      [dict.items()] iterates in); lookup takes the first binding.
    - Display calls ([st.error], [st.warning], [st.video], ...) are recorded
      as widgets; values interpolated into an f-string are kept as values. *)

From Stdlib Require Import Floats ZArith Ascii String.
From stdpp Require Import gmap strings list.

Local Open Scope string_scope.
Set Warnings "-register-all".

(** ** Python values *)

Inductive pyval : Type :=
| PNone
| PBool (b : bool)
| PInt (z : Z)
| PFloat (f : float)
| PStr (s : string)
| PList (l : list pyval)
| PDict (d : list (string * pyval)).

(** Exceptions that the script can raise and does not catch. *)
Inductive pyexn : Type :=
| KeyError (key : string)
| TypeError
| AttributeError (attr : string).

(** The result of a statement that may raise. *)
Inductive res (A : Type) : Type :=
| Ok (a : A)
| Raise (e : pyexn).
Arguments Ok {A} a.
Arguments Raise {A} e.

(** [bool(v)]: the test done by [if v:]. *)
Definition truthy (v : pyval) : bool :=
  match v with
  | PNone => false
  | PBool b => b
  | PInt z => negb (z =? 0)%Z
  | PFloat f => negb (PrimFloat.eqb f 0%float)
  | PStr s => negb (String.eqb s "")
  | PList l => match l with [] => false | _ => true end
  | PDict d => match d with [] => false | _ => true end
  end.

Fixpoint dict_get (d : list (string * pyval)) (k : string) : option pyval :=
  match d with
  | [] => None
  | (k', v) :: d' => if String.eqb k' k then Some v else dict_get d' k
  end.

(** [v[k]] with a string subscript [k]. *)
Definition subscript (v : pyval) (k : string) : res pyval :=
  match v with
  | PDict d => match dict_get d k with Some x => Ok x | None => Raise (KeyError k) end
  | _ => Raise TypeError
  end.

Fixpoint chars (s : string) : list pyval :=
  match s with
  | EmptyString => []
  | String c t => PStr (String c EmptyString) :: chars t
  end.

(** [iter(v)]: what a [for] loop or [enumerate] walks over. *)
Definition iterate (v : pyval) : res (list pyval) :=
  match v with
  | PList l => Ok l
  | PDict d => Ok (map (fun kv => PStr (fst kv)) d)
  | PStr s => Ok (chars s)
  | _ => Raise TypeError
  end.

(** [v.items()] *)
Definition items (v : pyval) : res (list (string * pyval)) :=
  match v with
  | PDict d => Ok d
  | _ => Raise (AttributeError "items")
  end.

Fixpoint is_substring (k s : string) : bool :=
  String.prefix k s ||
  match s with
  | EmptyString => false
  | String _ t => is_substring k t
  end.

Definition is_str (k : string) (v : pyval) : bool :=
  match v with
  | PStr s => String.eqb s k
  | _ => false
  end.

(** [k in v] for a string [k]. *)
Definition contains (k : string) (v : pyval) : res bool :=
  match v with
  | PDict d => Ok (match dict_get d k with Some _ => true | None => false end)
  | PList l => Ok (existsb (is_str k) l)
  | PStr s => Ok (is_substring k s)
  | _ => Raise TypeError
  end.

(** ** String helpers: [str.strip], [re.sub], slicing *)

Definition dquote : ascii := ascii_of_nat 34.
Definition newline : ascii := ascii_of_nat 10.

(** [str.isspace] on one character (code points below 256). *)
Definition is_space (c : ascii) : bool :=
  let n := nat_of_ascii c in
  (Nat.leb 9 n && Nat.leb n 13) || (Nat.leb 28 n && Nat.leb n 32)
  || Nat.eqb n 133 || Nat.eqb n 160.

Fixpoint lstrip (s : string) : string :=
  match s with
  | EmptyString => EmptyString
  | String c t => if is_space c then lstrip t else s
  end.

Fixpoint rstrip (s : string) : string :=
  match s with
  | EmptyString => EmptyString
  | String c t =>
      match rstrip t with
      | EmptyString => if is_space c then EmptyString else String c EmptyString
      | t' => String c t'
      end
  end.

(** [s.strip()] *)
Definition strip (s : string) : string := rstrip (lstrip s).

(** Where [$] matches: at the end of the string, or just before a newline
    that ends the string. *)
Definition at_dollar (rest : string) : bool :=
  match rest with
  | EmptyString => true
  | String c EmptyString => Ascii.eqb c newline
  | _ => false
  end.

(** The matches of the second alternative, a quote followed by [$], from
    position 1 on. *)
Fixpoint sub_end_quote (s : string) : string :=
  match s with
  | EmptyString => EmptyString
  | String c t =>
      if Ascii.eqb c dquote && at_dollar t then t
      else String c (sub_end_quote t)
  end.

(** [re.sub(r'(^"|"$)', '', s)]: every match is one quote character, at
    position 0 or in front of [$]; all matches are deleted. *)
Definition re_sub_quotes (s : string) : string :=
  match s with
  | EmptyString => EmptyString
  | String c t =>
      if Ascii.eqb c dquote then sub_end_quote t
      else String c (sub_end_quote t)
  end.

(** Lines 315-316: the URL cleaning of the video panel. *)
Definition clean_url (raw_url : string) : string :=
  re_sub_quotes (strip raw_url).

(** [raw_url.strip()] on an arbitrary payload value. *)
Definition py_strip (v : pyval) : res string :=
  match v with
  | PStr s => Ok (strip s)
  | _ => Raise (AttributeError "strip")
  end.

(** [s[:n]] *)
Definition slice_to (n : nat) (s : string) : string := String.substring 0 n s.

Definition quoted (s : string) : string :=
  String dquote (s +:+ String dquote EmptyString).

(** ** Widgets, requests and the world outside the script *)

(** A piece of an f-string: literal text, a number, or an interpolated
    value. *)
Inductive piece : Type :=
| Lit (s : string)
| Num (n : nat)
| Val (v : pyval).

Inductive wkind : Type :=
| StError | StWarning | StSuccess | StInfo
| StTitle | StCaption | StHeader | StSubheader
| StMarkdown | StExpander | StImage | StTabs | StVideo.

Inductive widget : Type :=
| Widget (k : wkind) (text : list piece).

(** An uploaded file. *)
Record File : Type := { file_name : string; file_data : string }.

(** What [_client.models.generate_content] returns: it raises, or it gives
    a response whose [text] is a string or [None]. *)
Inductive response : Type :=
| ApiRaise (msg : string)
| Reply (text : option string).

(** The message of the [TypeError] that [json.loads(None)] raises. *)
Definition json_type_error : string :=
  "the JSON object must be str, bytes or bytearray, not NoneType".

Definition fc_prompt : string :=
  "Generate a comprehensive set of flashcards based on the image content.".
Definition quiz_prompt : string :=
  "Generate a challenging 10-question multiple-choice quiz.".
Definition solver_prompt : string :=
  "Analyze the images and either (1) pick a difficult concept and explain it simply and clearly, "
  +:+ "or (2) solve the most prominent problem shown, providing a clear, numbered, step-by-step solution.".
Definition video_prompt : string :=
  "Identify the core concept and provide the best educational YouTube video URL for that concept.".

Definition fc_sys_instruction (subject : string) : string :=
  "You are an expert study assistant for " +:+ subject +:+ ". Analyze the images and "
  +:+ "extract key terms or concepts. Generate a flashcard for each. "
  +:+ "Output must be a strict JSON array of objects with keys 'question' and 'answer'.".
Definition quiz_sys_instruction (subject : string) : string :=
  "You are a quiz master for " +:+ subject +:+ ". Create a 10-question multiple-choice quiz "
  +:+ "based on the images. Each question must have 4 options (A, B, C, D) and a correct answer. "
  +:+ "Output must be a strict JSON array of objects with keys: 'question', 'options' (object mapping A-D to choices), 'correct_answer', and 'explanation'.".
Definition solver_sys_instruction (subject : string) : string :=
  "You are a helpful tutor for " +:+ subject +:+ ". Analyze the images for any complex concepts or "
  +:+ "mathematical problems. If a problem is present, provide a clear, numbered step-by-step solution. "
  +:+ "If concepts are present, provide a clear, simple explanation for one of the core concepts. "
  +:+ "Output must be a strict JSON object with a single key: 'tutor_response', "
  +:+ "containing the full text of the solution or explanation, formatted in markdown (use **bold** and steps).".
Definition video_sys_instruction (subject : string) : string :=
  "You are an expert video suggester for " +:+ subject +:+ ". Analyze the images and "
  +:+ "identify the single most complex or interesting concept that would benefit from a video explanation. "
  +:+ "Search YouTube and provide the URL for the best, most relevant educational video. "
  +:+ "Output must be a strict JSON object with keys: 'video_search_query' (the topic you searched for) and 'video_url' (the full YouTube URL).".

Section Pipeline.

(** A decoded image ([PIL.Image]). *)
Context {Image : Type}.

(** [json.loads]: the parsed value, or the message of the
    [JSONDecodeError]. *)
Variable json_loads : string -> pyval + string.

(** [Image.open]: the image, or the message of the exception. *)
Variable image_open : File -> Image + string.

(** The arguments of one remote call: [contents] is the image list
    followed by the prompt, [config] carries the system instruction. *)
Record request : Type := Request {
  contents_images : list Image;
  contents_prompt : string;
  config_system_instruction : string
}.

(** The remote model.  Its answer may depend on how many calls were made
    before, so that two identical requests may be answered differently. *)
Definition Client : Type := nat -> request -> response.

(** The process-wide part of the state: the store of [st.cache_data],
    keyed by the hashed arguments [(system_instruction, prompt)] (the
    arguments [_client] and [_images] start with an underscore and are
    left out of the key), the remote calls issued so far, and the page. *)
Record world : Type := World {
  cache : gmap (string * string) pyval;
  remote_log : list request;
  screen : list widget
}.

Definition st (k : wkind) (text : list piece) (w : world) : world :=
  World (cache w) (remote_log w) (screen w ++ [Widget k text]).

Definition log_call (rq : request) (w : world) : world :=
  World (cache w) (remote_log w ++ [rq]) (screen w).

(** [st.cache_data.clear()] *)
Definition cache_clear (w : world) : world :=
  World ∅ (remote_log w) (screen w).

Definition cache_put (k : string * string) (v : pyval) (w : world) : world :=
  World (<[k := v]> (cache w)) (remote_log w) (screen w).

(** Lines 104-135: the body of [generate_content]. *)
Definition generate_content_body (_client : option Client) (_images : list Image)
    (system_instruction prompt : string) (w : world) : pyval * world :=
  match _client with
  | None => (PNone, w)
  | Some c =>
      let rq := Request _images prompt system_instruction in
      let w' := log_call rq w in
      match c (length (remote_log w)) rq with
      | ApiRaise e =>
          (PNone, st StError [Lit "An API error occurred during content generation: "; Lit e] w')
      | Reply None =>
          (PNone, st StError [Lit "An API error occurred during content generation: ";
                              Lit json_type_error] w')
      | Reply (Some text) =>
          match json_loads text with
          | inl v => (v, w')
          | inr e =>
              (PNone,
               st StError [Lit "JSON Decoding Error: "; Lit e]
                 (st StError [Lit "Failed to decode JSON response from API. Expected JSON. Raw text received: ";
                              Lit (slice_to 200 text); Lit "..."] w'))
          end
      end
  end.

(** Line 103: [generate_content] under [@st.cache_data].  A stored return
    value is handed back without running the body; otherwise the body
    runs and whatever it returns is stored. *)
Definition generate_content (_client : option Client) (_images : list Image)
    (system_instruction prompt : string) (w : world) : pyval * world :=
  match cache w !! (system_instruction, prompt) with
  | Some v => (v, w)
  | None =>
      let '(v, w') := generate_content_body _client _images system_instruction prompt w in
      (v, cache_put (system_instruction, prompt) v w')
  end.

(** ** Session state and the script *)

Record session : Type := Session {
  ready : bool;
  video_url : option string;
  video_search_query : pyval;
  image_list : list Image;
  subject : string
}.

(** Lines 142-147: a new session. [image_list] and [subject] come into
    being with the first Analyze click and are read only under [ready]. *)
Definition new_session : session := Session false None PNone [] "".

(** Statements: they may raise, and what they did before stays done. *)
Definition M (A : Type) : Type := session * world -> res A * (session * world).

Definition ret {A} (a : A) : M A := fun sw => (Ok a, sw).

Definition bind {A B} (m : M A) (k : A -> M B) : M B :=
  fun sw =>
    match m sw with
    | (Ok a, sw') => k a sw'
    | (Raise e, sw') => (Raise e, sw')
    end.

Definition lift {A} (r : res A) : M A := fun sw => (r, sw).

Definition show (k : wkind) (text : list piece) : M unit :=
  fun '(s, w) => (Ok tt, (s, st k text w)).

Definition call_generate (client : option Client) (images : list Image)
    (system_instruction prompt : string) : M pyval :=
  fun '(s, w) =>
    let '(v, w') := generate_content client images system_instruction prompt w in
    (Ok v, (s, w')).

Definition get_session : M session := fun sw => (Ok (fst sw), sw).

(** [st.session_state.video_url = url] *)
Definition set_video_url (url : option string) : M unit :=
  fun '(s, w) =>
    (Ok tt, (Session (ready s) url (video_search_query s) (image_list s) (subject s), w)).

(** [st.session_state.video_search_query = query] *)
Definition set_video_search_query (query : pyval) : M unit :=
  fun '(s, w) =>
    (Ok tt, (Session (ready s) (video_url s) query (image_list s) (subject s), w)).

#[local] Notation "x <- m ;; k" := (bind m (fun x => k))
  (at level 100, m at next level, right associativity, only parsing).
#[local] Notation "m ;;; k" := (bind m (fun _ => k))
  (at level 100, right associativity, only parsing).

(** [for i, x in enumerate(l): body] *)
Fixpoint for_enumerate {A} (body : nat -> A -> M unit) (i : nat) (l : list A) : M unit :=
  match l with
  | [] => ret tt
  | x :: l' => body i x ;;; for_enumerate body (S i) l'
  end.

(** Lines 221-223: one flashcard. *)
Definition show_card (i : nat) (card : pyval) : M unit :=
  question <- lift (subscript card "question") ;;
  show StExpander [Lit "Question "; Num (i + 1); Lit ": "; Val question] ;;;
  answer <- lift (subscript card "answer") ;;
  show StMarkdown [Lit "Answer: "; Val answer].

(** Lines 207-228: the flashcard tab. *)
Definition flashcards_tab (client : option Client) (images : list Image)
    (subject : string) : M unit :=
  show StHeader [Lit "Flashcard Set"] ;;;
  flashcards <- call_generate client images (fc_sys_instruction subject) fc_prompt ;;
  if truthy flashcards then
    cards <- lift (iterate flashcards) ;;
    for_enumerate show_card 0 cards ;;;
    show StSuccess [Lit "Flashcards generated successfully."]
  else
    show StWarning [Lit "Could not generate flashcards."].

(** Line 248: the option lines, joined by newlines. *)
Fixpoint options_str (opts : list (string * pyval)) : list piece :=
  match opts with
  | [] => []
  | [(key, val)] => [Lit "- **"; Lit key; Lit "**: "; Val val]
  | (key, val) :: rest =>
      [Lit "- **"; Lit key; Lit "**: "; Val val; Lit (String newline EmptyString)]
      ++ options_str rest
  end.

(** Lines 246-253: one quiz question. *)
Definition show_question (i : nat) (q : pyval) : M unit :=
  question <- lift (subscript q "question") ;;
  show StSubheader [Lit "Question "; Num (i + 1); Lit ": "; Val question] ;;;
  options <- lift (subscript q "options") ;;
  opts <- lift (items options) ;;
  show StMarkdown (options_str opts) ;;;
  show StExpander [Lit "Reveal Answer"] ;;;
  correct_answer <- lift (subscript q "correct_answer") ;;
  show StSuccess [Lit "Correct Answer: **"; Val correct_answer; Lit "**"] ;;;
  explanation <- lift (subscript q "explanation") ;;
  show StInfo [Lit "Explanation: "; Val explanation].

(** Lines 231-258: the quiz tab. *)
Definition quiz_tab (client : option Client) (images : list Image)
    (subject : string) : M unit :=
  show StHeader [Lit "Multiple-Choice Quiz"] ;;;
  quiz <- call_generate client images (quiz_sys_instruction subject) quiz_prompt ;;
  if truthy quiz then
    questions <- lift (iterate quiz) ;;
    for_enumerate show_question 0 questions ;;;
    show StSuccess [Lit "Quiz generated successfully."]
  else
    show StWarning [Lit "Could not generate the quiz."].

(** [a and b], where [b] is evaluated only when [a] holds. *)
Definition and_then (a : bool) (b : M bool) : M bool :=
  if a then b else ret false.

(** Lines 261-286: the explainer tab. *)
Definition explainer_tab (client : option Client) (images : list Image)
    (subject : string) : M unit :=
  show StHeader [Lit "Step-by-Step Problem Solver & Explainer"] ;;;
  solver_data <- call_generate client images (solver_sys_instruction subject) solver_prompt ;;
  ok <- and_then (truthy solver_data) (lift (contains "tutor_response" solver_data)) ;;
  if ok then
    show StInfo [Lit "Tutor's Analysis:"] ;;;
    tutor_response <- lift (subscript solver_data "tutor_response") ;;
    show StMarkdown [Val tutor_response] ;;;
    show StSuccess [Lit "Explainer generated successfully."]
  else
    show StWarning [Lit "Could not generate the Explainer."].

(** [if st.session_state.video_url:] *)
Definition url_truthy (u : option string) : bool :=
  match u with
  | Some s => truthy (PStr s)
  | None => truthy PNone
  end.

(** Lines 289-331: the video tab. *)
Definition video_tab (client : option Client) (images : list Image)
    (subject : string) : M unit :=
  show StHeader [Lit "Video Tutor"] ;;;
  s <- get_session ;;
  if url_truthy (video_url s) then
    show StSubheader [Lit "Video suggested for: **"; Val (video_search_query s); Lit "**"] ;;;
    show StVideo [Lit (default "" (video_url s))] ;;;
    show StSuccess [Lit "Video embedded from a previous analysis."]
  else
    video_data <- call_generate client images (video_sys_instruction subject) video_prompt ;;
    ok <- and_then (truthy video_data)
            (has_url <- lift (contains "video_url" video_data) ;;
             and_then has_url (lift (contains "video_search_query" video_data))) ;;
    if ok then
      raw_url <- lift (subscript video_data "video_url") ;;
      stripped <- lift (py_strip raw_url) ;;
      let clean := re_sub_quotes stripped in
      set_video_url (Some clean) ;;;
      query <- lift (subscript video_data "video_search_query") ;;
      set_video_search_query query ;;;
      show StSubheader [Lit "Video suggested for: **"; Val query; Lit "**"] ;;;
      show StVideo [Lit clean] ;;;
      show StSuccess [Lit "Video embedded successfully."]
    else
      show StWarning [Lit "Could not identify a topic or find a video URL. Try again."].

(** Line 184: [[Image.open(file) for file in uploaded_files]]; the first
    file that fails to open ends the comprehension. *)
Fixpoint open_all (files : list File) : list Image + string :=
  match files with
  | [] => inl []
  | f :: rest =>
      match image_open f with
      | inr e => inr e
      | inl img =>
          match open_all rest with
          | inr e => inr e
          | inl imgs => inl (img :: imgs)
          end
      end
  end.

Definition clear_cache : M unit :=
  fun '(s, w) => (Ok tt, (s, cache_clear w)).

Definition start_run (images : list Image) (subject_input : string) : M unit :=
  fun '(s, w) =>
    (Ok tt, (Session true (video_url s) (video_search_query s) images subject_input, w)).

(** Lines 176-191: the body of the Analyze button. *)
Definition analyze_trigger (uploaded_files : list File) (subject_input : string) : M unit :=
  clear_cache ;;;
  set_video_url None ;;;
  set_video_search_query PNone ;;;
  images <- match open_all uploaded_files with
            | inl imgs => ret imgs
            | inr e =>
                show StError [Lit "Error opening uploaded image files: "; Lit e] ;;;
                ret []
            end ;;
  start_run images subject_input.

(** Lines 194-331: the four tabs, in order. *)
Definition results (client : option Client) : M unit :=
  s <- get_session ;;
  let images := image_list s in
  let subject := subject s in
  show StTabs [Lit "Flashcards"; Lit "Quiz"; Lit "Explainer"; Lit "Video Tutor"] ;;;
  flashcards_tab client images subject ;;;
  quiz_tab client images subject ;;;
  explainer_tab client images subject ;;;
  video_tab client images subject.

(** What one run of the script is given: the client built from the API
    key (or [None]), the uploader's files, the subject box, and whether the
    Analyze button was just clicked. *)
Record pass_input : Type := PassInput {
  api_client : option Client;
  uploaded_files : list File;
  subject_input : string;
  clicked : bool
}.

Definition new_page : M unit :=
  fun '(s, w) => (Ok tt, (s, World (cache w) (remote_log w) [])).

(** Lines 152-167: the sidebar. *)
Definition sidebar (files : list File) : M unit :=
  show StHeader [Lit "Upload Notes"] ;;;
  match files with
  | [] => ret tt
  | _ =>
      show StSubheader [Lit "Notes Preview"] ;;;
      for_enumerate (fun _ f => show StImage [Lit (file_name f)]) 0 files
  end.

(** One run of the script, top to bottom (the style sheet is not shown). *)
Definition script (i : pass_input) : M unit :=
  new_page ;;;
  match api_client i with
  | None => show StError [Lit "GEMINI_API_KEY not found. Please set it in the .env file."]
  | Some _ => ret tt
  end ;;;
  show StTitle [Lit "Your Gemini StudyPal"] ;;;
  show StCaption [Lit "Use Gemini StudyPal to create flashcards, quizzes, and explanations from your notes."] ;;;
  sidebar (uploaded_files i) ;;;
  match uploaded_files i, api_client i with
  | [], _ =>
      show StInfo [Lit "Please upload one or more images of your notes or textbook to begin."]
  | _, None => ret tt
  | _, Some _ =>
      (if clicked i then analyze_trigger (uploaded_files i) (subject_input i) else ret tt) ;;;
      s <- get_session ;;
      if ready s then results (api_client i) else ret tt
  end.

(** A session: the script runs once per interaction; an uncaught exception
    ends that run only, and the state it left is what the next run sees. *)
Fixpoint run_passes (inputs : list pass_input) (sw : session * world) : session * world :=
  match inputs with
  | [] => sw
  | i :: rest => run_passes rest (snd (script i sw))
  end.

(** A series of calls of [generate_content], as a caller without a client
    would make them. *)
Fixpoint calls_without_client (reqs : list (list Image * string * string)) (w : world)
    : list pyval * world :=
  match reqs with
  | [] => ([], w)
  | (images, si, p) :: rest =>
      let '(v, w') := generate_content None images si p w in
      let '(vs, w'') := calls_without_client rest w' in
      (v :: vs, w'')
  end.

Definition new_world : world := World ∅ [] [].

(** ** Vocabulary of the properties *)

(** [steps R m]: running [m] takes every state to an [R]-related one,
    whether [m] finishes or raises. *)
Definition steps (R : session * world -> session * world -> Prop) {A} (m : M A) : Prop :=
  forall sw, R sw (snd (m sw)).

Definition same_session (a b : session * world) : Prop := fst b = fst a.

(** The run stays the same: [ready], the images and the subject. *)
Definition same_run (a b : session * world) : Prop :=
  ready (fst b) = ready (fst a)
  /\ image_list (fst b) = image_list (fst a)
  /\ subject (fst b) = subject (fst a).

(** Nothing is stored and nothing is requested. *)
Definition same_store (a b : session * world) : Prop :=
  cache (snd b) = cache (snd a) /\ remote_log (snd b) = remote_log (snd a).

Definition same_log (a b : session * world) : Prop :=
  remote_log (snd b) = remote_log (snd a).


(** The requests of the four tabs, in the order the script issues them. *)
Definition four_requests (images : list Image) (subject : string) : list request :=
  [ Request images fc_prompt (fc_sys_instruction subject);
    Request images quiz_prompt (quiz_sys_instruction subject);
    Request images solver_prompt (solver_sys_instruction subject);
    Request images video_prompt (video_sys_instruction subject) ].

(** The message of the exception that ends the remote call or the
    decoding of a response without text, if there is one. *)
Definition api_failure (r : response) : option string :=
  match r with
  | ApiRaise msg => Some msg
  | Reply None => Some json_type_error
  | Reply (Some _) => None
  end.

(** No entry of the cache is lost. *)
Definition cache_kept (a b : session * world) : Prop :=
  forall k, is_Some (cache (snd a) !! k) -> is_Some (cache (snd b) !! k).

(** At most [n] requests are added to the log, and none is taken away. *)
Definition grows (n : nat) (a b : session * world) : Prop :=
  exists l, remote_log (snd b) = (remote_log (snd a) ++ l)%list /\ length l <= n.

(** A string with no white space and no double quote in it. *)
Fixpoint plain (s : string) : bool :=
  match s with
  | EmptyString => true
  | String c t => negb (is_space c) && negb (Ascii.eqb c dquote) && plain t
  end.

(** A string of white space. *)
Fixpoint blank (s : string) : bool :=
  match s with
  | EmptyString => true
  | String c t => is_space c && blank t
  end.

Definition has_key (k : string) (d : list (string * pyval)) : bool :=
  match dict_get d k with Some _ => true | None => false end.

(** A card the flashcard tab can show: an object with both keys. *)
Definition card_ok (card : pyval) : bool :=
  match card with
  | PDict d => has_key "question" d && has_key "answer" d
  | _ => false
  end.

(** A question the quiz tab can show: an object with the four keys whose
    ['options'] is an object. *)
Definition question_ok (q : pyval) : bool :=
  match q with
  | PDict d =>
      has_key "question" d
      && match dict_get d "options" with Some (PDict _) => true | _ => false end
      && has_key "correct_answer" d && has_key "explanation" d
  | _ => false
  end.

(** The payloads on which the flashcard tab does not raise: the falsy
    ones and the arrays of cards it can show. *)
Definition flashcards_safe (v : pyval) : bool :=
  negb (truthy v)
  || match v with
     | PList l => forallb card_ok l
     | _ => false
     end.

(** The same for the quiz tab. *)
Definition quiz_safe (v : pyval) : bool :=
  negb (truthy v)
  || match v with
     | PList l => forallb question_ok l
     | _ => false
     end.

(** The payloads on which the explainer tab does not raise: the falsy
    ones, the objects, and the arrays and strings in which [in] does not
    find ['tutor_response']. *)
Definition explainer_safe (v : pyval) : bool :=
  negb (truthy v)
  || match v with
     | PDict _ => true
     | PList l => negb (existsb (is_str "tutor_response") l)
     | PStr s => negb (is_substring "tutor_response" s)
     | _ => false
     end.

(** The keys of the four tabs are all in the cache. *)
Definition all_cached (images : list Image) (subject : string) (w : world) : Prop :=
  Forall (fun rq => is_Some (cache w !! (config_system_instruction rq, contents_prompt rq)))
         (four_requests images subject).


End Pipeline.

(** ** Concrete stand-ins used to run the definitions

    Images are numbered notes.  [demo_loads] agrees with [json.loads] on the
    texts of the scenarios below and rejects every other text the way
    [json.loads] rejects prose. *)

Definition cards_text : string :=
  "[{" +:+ quoted "question" +:+ ": " +:+ quoted "Q1" +:+ ", "
  +:+ quoted "answer" +:+ ": " +:+ quoted "A1" +:+ "}]".
Definition cards_payload : pyval :=
  PList [PDict [("question", PStr "Q1"); ("answer", PStr "A1")]].

Definition other_cards_text : string :=
  "[{" +:+ quoted "question" +:+ ": " +:+ quoted "Q2" +:+ ", "
  +:+ quoted "answer" +:+ ": " +:+ quoted "A2" +:+ "}]".
Definition other_cards_payload : pyval :=
  PList [PDict [("question", PStr "Q2"); ("answer", PStr "A2")]].

Definition no_question_text : string :=
  "[{" +:+ quoted "answer" +:+ ": " +:+ quoted "A1" +:+ "}]".
Definition no_question_payload : pyval :=
  PList [PDict [("answer", PStr "A1")]].

Definition video_text (url : string) : string :=
  "{" +:+ quoted "video_search_query" +:+ ": " +:+ quoted "mitosis" +:+ ", "
  +:+ quoted "video_url" +:+ ": " +:+ quoted url +:+ "}".
Definition video_payload (url : string) : pyval :=
  PDict [("video_search_query", PStr "mitosis"); ("video_url", PStr url)].

Definition null_query_text : string :=
  "{" +:+ quoted "video_search_query" +:+ ": null, "
  +:+ quoted "video_url" +:+ ": " +:+ quoted "https://youtu.be/abc" +:+ "}".
Definition null_query_payload : pyval :=
  PDict [("video_search_query", PNone); ("video_url", PStr "https://youtu.be/abc")].

Definition prose_text : string := "Sorry, I can't help".

Definition demo_loads (text : string) : pyval + string :=
  if String.eqb text cards_text then inl cards_payload
  else if String.eqb text other_cards_text then inl other_cards_payload
  else if String.eqb text no_question_text then inl no_question_payload
  else if String.eqb text (video_text "") then inl (video_payload "")
  else if String.eqb text (video_text "https://youtu.be/abc")
       then inl (video_payload "https://youtu.be/abc")
  else if String.eqb text null_query_text then inl null_query_payload
  else if String.eqb text "{}" then inl (PDict [])
  else if String.eqb text "[]" then inl (PList [])
  else inr "Expecting value: line 1 column 1 (char 0)".

(** A remote model that answers the n-th call with the n-th entry. *)
Definition scripted_client (answers : list response) : @Client nat :=
  fun n _ => nth n answers (ApiRaise "503 UNAVAILABLE").


(** Every file opens: the image is the length of its data. *)
Definition demo_open (f : File) : nat + string := inl (String.length (file_data f)).


Definition demo_file : File := {| file_name := "notes.png"; file_data := "not an image" |}.

(** The key of the flashcards task for the subject Biology. *)
Definition biology_cards : string * string := (fc_sys_instruction "Biology", fc_prompt).

(** The session right after an Analyze click on one readable note. *)
Definition fresh_run : session (Image:=nat) * world (Image:=nat) :=
  (Session true None PNone [1] "Biology", new_world).



(** A video payload whose URL is a number. *)
Definition number_url_payload : pyval :=
  PDict [("video_search_query", PStr "mitosis"); ("video_url", PInt 5)].

(** A world whose cache holds a payload for the video task of Biology. *)
Definition cached_video (v : pyval) : world (Image:=nat) :=
  cache_put (video_sys_instruction "Biology", video_prompt) v new_world.

(** A model that answers the four tabs in turn. *)
Definition four_answers_client : @Client nat :=
  scripted_client
    [Reply (Some cards_text); Reply (Some "[]"); Reply (Some "{}");
     Reply (Some (video_text "https://youtu.be/abc"))].

(** A finished Analyze run on one note. *)
Definition finished_run : res unit * (session (Image:=nat) * world (Image:=nat)) :=
  script demo_loads demo_open (PassInput (Some four_answers_client) [demo_file] "Biology" true)
    (new_session, new_world).

(** * Properties *)

Section GenerateContent.

Context {Image : Type}.
Variable json_loads : string -> pyval + string.

#[local] Abbreviation generate := (generate_content (Image:=Image) json_loads).
#[local] Abbreviation body := (generate_content_body (Image:=Image) json_loads).

Lemma body_no_client (images : list Image) si p w :
  body None images si p w = (PNone, w).
Proof. reflexivity. Qed.

Lemma body_cache (client : option Client) (images : list Image) si p w :
  cache (snd (body client images si p w)) = cache w.
Proof.
  unfold generate_content_body.
  destruct client as [c|]; [|reflexivity].
  destruct (c _ _) as [e|[text|]]; try reflexivity.
  destruct (json_loads text); reflexivity.
Qed.

Lemma body_log (c : Client) (images : list Image) si p w :
  remote_log (snd (body (Some c) images si p w)) = (remote_log w ++ [Request images p si])%list.
Proof.
  unfold generate_content_body.
  destruct (c _ _) as [e|[text|]]; try reflexivity.
  destruct (json_loads text); reflexivity.
Qed.

Lemma generate_hit client (images : list Image) si p w v :
  cache w !! (si, p) = Some v -> generate client images si p w = (v, w).
Proof. intros H. unfold generate_content. now rewrite H. Qed.

Lemma generate_miss client (images : list Image) si p w :
  cache w !! (si, p) = None ->
  generate client images si p w =
    (fst (body client images si p w),
     cache_put (si, p) (fst (body client images si p w)) (snd (body client images si p w))).
Proof.
  intros H. unfold generate_content. rewrite H.
  now destruct (body client images si p w).
Qed.

(** Whatever a call returns is what the store holds for its key afterwards. *)
Lemma generate_stores client (images : list Image) si p w :
  cache (snd (generate client images si p w)) !! (si, p)
  = Some (fst (generate client images si p w)).
Proof.
  destruct (cache w !! (si, p)) as [v|] eqn:H.
  - now rewrite (generate_hit _ _ _ _ _ _ H).
  - rewrite (generate_miss _ _ _ _ _ H). cbn. apply lookup_insert_eq.
Qed.

(** The second of two calls with the same hashed arguments runs no code of
    the body, whichever client and images it is given. *)
Lemma generate_twice client client' (images images' : list Image) si p w :
  generate client' images' si p (snd (generate client images si p w))
  = generate client images si p w.
Proof.
  rewrite (generate_hit _ _ _ _ _ _ (generate_stores client images si p w)).
  now destruct (generate client images si p w).
Qed.

(** A call issues at most the one request of its body. *)
Lemma generate_log client (images : list Image) si p w :
  remote_log (snd (generate client images si p w)) = remote_log w
  \/ remote_log (snd (generate client images si p w)) = (remote_log w ++ [Request images p si])%list.
Proof.
  destruct (cache w !! (si, p)) as [v|] eqn:H.
  - left. now rewrite (generate_hit _ _ _ _ _ _ H).
  - rewrite (generate_miss _ _ _ _ _ H). cbn.
    destruct client as [c|]; [right; apply body_log | now left].
Qed.


Lemma slice_to_prefix n s : String.prefix (slice_to n s) s = true.
Proof.
  unfold slice_to. revert s.
  induction n as [|n IH]; intros [|c s]; cbn; try reflexivity.
  rewrite IH. now destruct (ascii_dec c c).
Qed.

Lemma slice_to_length n s :
  String.length (slice_to n s) = Nat.min n (String.length s).
Proof.
  unfold slice_to. revert s.
  induction n as [|n IH]; intros [|c s]; cbn; try reflexivity.
  now rewrite IH.
Qed.

(** C5.  Two calls of [generate_content] with unchanged images, system
    instruction (which carries the subject) and prompt (the task), with no
    cache clear in between, the first of which returned a payload: the
    second call returns that payload from the cache and issues no request,
    so the two calls together issue at most one. *)
Theorem C5_second_call_is_cache_hit (c : Client) (images : list Image) si p w :
  let first := generate (Some c) images si p w in
  fst first <> PNone ->
  let second := generate (Some c) images si p (snd first) in
  fst second = fst first
  /\ remote_log (snd second) = remote_log (snd first)
  /\ length (remote_log (snd second)) <= S (length (remote_log w)).
Proof.
  intros first _ second. subst first second.
  rewrite generate_twice. repeat split.
  destruct (generate_log (Some c) images si p w) as [-> | ->].
  - lia.
  - rewrite length_app. cbn. lia.
Qed.


(** C8.  When the response text is not JSON, [generate_content] returns
    [None], having shown two errors: the first carries [response.text[:200]],
    a prefix of the raw text of at most 200 characters, the second the
    decoder's message.  The call returns a value: nothing is raised. *)
Theorem C8_parse_failure_shows_prefix (c : Client) (images : list Image) si p w text e :
  cache w !! (si, p) = None ->
  c (length (remote_log w)) (Request images p si) = Reply (Some text) ->
  json_loads text = inr e ->
  generate (Some c) images si p w =
    (PNone,
     cache_put (si, p) PNone
       (st StError [Lit "JSON Decoding Error: "; Lit e]
          (st StError [Lit "Failed to decode JSON response from API. Expected JSON. Raw text received: ";
                       Lit (slice_to 200 text); Lit "..."]
             (log_call (Request images p si) w))))
  /\ String.prefix (slice_to 200 text) text = true
  /\ String.length (slice_to 200 text) = Nat.min 200 (String.length text).
Proof.
  intros Hmiss Hreply Hloads. split; [|split].
  - rewrite generate_miss by exact Hmiss.
    unfold generate_content_body. rewrite Hreply, Hloads. reflexivity.
  - apply slice_to_prefix.
  - apply slice_to_length.
Qed.

End GenerateContent.

(** ** Reasoning about statements *)

Section Steps.

Context {Image : Type}.
Variable json_loads : string -> pyval + string.
Variable R : session (Image:=Image) * world (Image:=Image)
             -> session (Image:=Image) * world (Image:=Image) -> Prop.
Hypothesis R_refl : forall x, R x x.
Hypothesis R_trans : forall x y z, R x y -> R y z -> R x z.

Lemma steps_ret {A} (a : A) : steps R (ret a).
Proof. intros sw. apply R_refl. Qed.

Lemma steps_lift {A} (r : res A) : steps R (lift r).
Proof. intros sw. apply R_refl. Qed.

Lemma steps_get_session : steps R get_session.
Proof. intros sw. apply R_refl. Qed.

Lemma steps_bind {A B} (m : M A) (k : A -> M B) :
  steps R m -> (forall a, steps R (k a)) -> steps R (bind m k).
Proof.
  intros Hm Hk sw. unfold bind.
  specialize (Hm sw). destruct (m sw) as [[a|e] sw1]; cbn in *.
  - eapply R_trans; [exact Hm | apply Hk].
  - exact Hm.
Qed.

Lemma steps_and_then (a : bool) (b : M bool) : steps R b -> steps R (and_then a b).
Proof. intros Hb. destruct a; [exact Hb | apply steps_ret]. Qed.

Lemma steps_for_enumerate {A} (f : nat -> A -> M unit) (l : list A) :
  (forall i x, steps R (f i x)) -> forall i, steps R (for_enumerate f i l).
Proof.
  intros Hf. induction l as [|x l IH]; intros i; cbn.
  - apply steps_ret.
  - apply steps_bind; [apply Hf | intros _; apply IH].
Qed.

Hypothesis R_show : forall k text, steps R (show k text).
Hypothesis R_generate :
  forall client images si p, steps R (call_generate json_loads client images si p).

Ltac walk :=
  repeat first
    [ apply steps_ret | apply steps_lift | apply steps_get_session
    | apply R_show | apply R_generate
    | apply steps_bind; [|intros ?]
    | apply steps_and_then
    | apply steps_for_enumerate; intros ? ?
    | match goal with |- steps R (if ?b then _ else _) => destruct b end ].

Lemma steps_flashcards_tab client images subject :
  steps R (flashcards_tab json_loads client images subject).
Proof. unfold flashcards_tab, show_card. walk. Qed.

Lemma steps_quiz_tab client images subject :
  steps R (quiz_tab json_loads client images subject).
Proof. unfold quiz_tab, show_question. walk. Qed.

Lemma steps_explainer_tab client images subject :
  steps R (explainer_tab json_loads client images subject).
Proof. unfold explainer_tab. walk. Qed.

Lemma steps_sidebar files : steps R (sidebar files).
Proof. unfold sidebar. walk. Qed.

(** The video tab also writes the two video fields. *)
Hypothesis R_set_url : forall u, steps R (set_video_url u).
Hypothesis R_set_query : forall q, steps R (set_video_search_query q).

Lemma steps_video_tab client images subject :
  steps R (video_tab json_loads client images subject).
Proof. unfold video_tab. walk; [apply R_set_url | apply R_set_query]. Qed.

Hypothesis R_video_tab :
  forall client images subject, steps R (video_tab json_loads client images subject).

Lemma steps_results client : steps R (results json_loads client).
Proof.
  unfold results.
  apply steps_bind; [apply steps_get_session | intros s; cbv zeta].
  apply steps_bind; [apply R_show | intros _].
  apply steps_bind; [apply steps_flashcards_tab | intros _].
  apply steps_bind; [apply steps_quiz_tab | intros _].
  apply steps_bind; [apply steps_explainer_tab | intros _].
  apply R_video_tab.
Qed.

Variable image_open : File -> Image + string.
Hypothesis R_new_page : steps R new_page.


Hypothesis R_trigger :
  forall files subj, steps R (analyze_trigger image_open files subj).


End Steps.

(** ** The script *)

Section Script.

Context {Image : Type}.
Variable json_loads : string -> pyval + string.
Variable image_open : File -> Image + string.

#[local] Abbreviation state := (session (Image:=Image) * world (Image:=Image))%type.

(** What the Analyze button leaves behind: an empty cache, both video
    fields [None], the decoded images (none when a file failed to open),
    and [ready]. *)
Lemma analyze_trigger_result files subj (s : session) (w : world) :
  analyze_trigger image_open files subj (s, w) =
    (Ok tt,
     (Session true None PNone
        (match open_all image_open files with inl imgs => imgs | inr _ => [] end) subj,
      match open_all image_open files with
      | inl _ => cache_clear w
      | inr e => st StError [Lit "Error opening uploaded image files: "; Lit e] (cache_clear w)
      end)).
Proof.
  unfold analyze_trigger. cbn.
  destruct (open_all image_open files); reflexivity.
Qed.

Lemma show_session k text (sw : state) : fst (snd (show k text sw)) = fst sw.
Proof. now destruct sw. Qed.

Lemma call_generate_session client (images : list Image) si p (sw : state) :
  fst (snd (call_generate json_loads client images si p sw)) = fst sw.
Proof.
  destruct sw as [s w]. unfold call_generate.
  now destruct (generate_content json_loads client images si p w).
Qed.


Lemma same_run_refl (x : state) : same_run x x.
Proof. repeat split. Qed.

Lemma same_run_trans (x y z : state) : same_run x y -> same_run y z -> same_run x z.
Proof. unfold same_run. intros (?&?&?) (?&?&?). repeat split; congruence. Qed.

Lemma same_run_same_session (x y : state) : fst y = fst x -> same_run x y.
Proof. intros H. unfold same_run. now rewrite H. Qed.

Lemma same_run_show k text : steps (Image:=Image) same_run (show k text).
Proof. intros sw. apply same_run_same_session, show_session. Qed.

Lemma same_run_generate client (images : list Image) si p :
  steps same_run (call_generate json_loads client images si p).
Proof. intros sw. apply same_run_same_session, call_generate_session. Qed.

Lemma same_run_video_tab client (images : list Image) subj :
  steps same_run (video_tab json_loads client images subj).
Proof.
  apply steps_video_tab.
  - apply same_run_refl.
  - apply same_run_trans.
  - apply same_run_show.
  - apply same_run_generate.
  - intros u [s w]. repeat split.
  - intros q [s w]. repeat split.
Qed.

Lemma same_run_results client :
  steps (Image:=Image) same_run (results json_loads client).
Proof.
  apply steps_results.
  - apply same_run_refl.
  - apply same_run_trans.
  - apply same_run_show.
  - apply same_run_generate.
  - apply same_run_video_tab.
Qed.



Lemma calls_without_client_none (reqs : list (list Image * string * string)) (w : world) :
  (forall k v, cache w !! k = Some v -> v = PNone) ->
  Forall (eq PNone) (fst (calls_without_client json_loads reqs w))
  /\ remote_log (snd (calls_without_client json_loads reqs w)) = remote_log w.
Proof.
  revert w. induction reqs as [|[[images si] p] rest IH]; intros w Hw; cbn.
  - split; [constructor | reflexivity].
  - unfold generate_content.
    destruct (cache w !! (si, p)) as [v|] eqn:Hkey; cbn.
    + specialize (IH w Hw). apply Hw in Hkey. subst v.
      destruct (calls_without_client json_loads rest w) as [vs w2]. cbn in *.
      destruct IH as [IH1 IH2]. split; [constructor; auto | exact IH2].
    + specialize (IH (cache_put (si, p) PNone w)).
      destruct (calls_without_client json_loads rest (cache_put (si, p) PNone w))
        as [vs w2]. cbn in *.
      destruct IH as [IH1 IH2].
      * intros k v. destruct (decide ((si, p) = k)) as [<-|Hne].
        -- rewrite lookup_insert_eq. congruence.
        -- rewrite lookup_insert_ne by exact Hne. apply Hw.
      * split; [constructor; auto | exact IH2].
Qed.

(** C4.  Without a client the body of [generate_content] returns [None]
    at once, and no call of [generate_content] issues a request, whatever
    the cache holds.  In a process that never had a client every call
    returns [None].  The script itself does not reach the result tabs
    without a client, so a run issues no request either. *)
Theorem C4_no_client_no_remote_call :
  (forall (images : list Image) si p w,
     generate_content_body json_loads None images si p w = (PNone, w))
  /\ (forall (images : list Image) si p w,
        remote_log (snd (generate_content json_loads None images si p w)) = remote_log w)
  /\ (forall reqs : list (list Image * string * string),
        Forall (eq PNone) (fst (calls_without_client json_loads reqs new_world))
        /\ remote_log (snd (calls_without_client json_loads reqs new_world)) = [])
  /\ (forall files subj click (sw : state),
        remote_log (snd (snd (script json_loads image_open
                                (PassInput None files subj click) sw)))
        = remote_log (snd sw)).
Proof.
  split; [|split; [|split]].
  - reflexivity.
  - intros. unfold generate_content.
    destruct (cache w !! (si, p)); reflexivity.
  - intros reqs. apply calls_without_client_none.
    intros k v. cbn [new_world cache]. rewrite lookup_empty. discriminate.
  - intros files subj click sw.
    assert (Hshow : forall k text, steps same_log (show (Image:=Image) k text))
      by (intros k text [s w]; reflexivity).
    assert (Htrans : forall x y z : state, same_log x y -> same_log y z -> same_log x z)
      by (unfold same_log; intros; etransitivity; eassumption).
    assert (Hrefl : forall x : state, same_log x x) by reflexivity.
    revert sw.
    change (steps same_log (script json_loads image_open (PassInput None files subj click))).
    unfold script. cbn [api_client uploaded_files subject_input clicked].
    apply steps_bind; [exact Htrans | intros [s w]; reflexivity | intros _].
    apply steps_bind; [exact Htrans | apply Hshow | intros _].
    apply steps_bind; [exact Htrans | apply Hshow | intros _].
    apply steps_bind; [exact Htrans | apply Hshow | intros _].
    apply steps_bind; [exact Htrans | apply steps_sidebar; assumption | intros _].
    destruct files; [apply Hshow | apply steps_ret; exact Hrefl].
Qed.







(** Behind the guard of line 312 the payload is an object that has the
    query: reading it between the two writes cannot raise. *)
Lemma guarded_query_read (video_data raw_url : pyval) :
  contains "video_search_query" video_data = Ok true ->
  subscript video_data "video_url" = Ok raw_url ->
  exists query, subscript video_data "video_search_query" = Ok query.
Proof.
  destruct video_data as [| | | | |l|d]; cbn; try discriminate.
  intros Hin _. destruct (dict_get d "video_search_query") as [query|].
  - now exists query.
  - discriminate.
Qed.






(** *** A run started by the Analyze button *)

Lemma bind_show {B} k text (f : unit -> M (Image:=Image) B) (s : session) (w : world) :
  bind (show k text) f (s, w) = f tt (s, st k text w).
Proof. reflexivity. Qed.

Lemma bind_get_session {B} (f : session -> M (Image:=Image) B) (sw : state) :
  bind get_session f sw = f (fst sw) sw.
Proof. reflexivity. Qed.

Lemma bind_ok {A B} (m : M (Image:=Image) A) (k : A -> M B) (sw sw' : state) a :
  m sw = (Ok a, sw') -> bind m k sw = k a sw'.
Proof. intros H. unfold bind. now rewrite H. Qed.

Lemma bind_cases {A B} (m : M (Image:=Image) A) (k : A -> M B) (sw : state) :
  (exists e, bind m k sw = (Raise e, snd (m sw)))
  \/ (exists a, fst (m sw) = Ok a /\ bind m k sw = k a (snd (m sw))).
Proof. unfold bind. destruct (m sw) as [[a|e] sw']; eauto. Qed.

Lemma same_store_refl (x : state) : same_store x x.
Proof. split; reflexivity. Qed.

Lemma same_store_trans (x y z : state) : same_store x y -> same_store y z -> same_store x z.
Proof. unfold same_store. intros [? ?] [? ?]. split; congruence. Qed.

Lemma same_store_show k text : steps (Image:=Image) same_store (show k text).
Proof. intros [s w]. split; reflexivity. Qed.

Lemma same_store_set_url u : steps (Image:=Image) same_store (set_video_url u).
Proof. intros [s w]. split; reflexivity. Qed.

Lemma same_store_set_query q : steps (Image:=Image) same_store (set_video_search_query q).
Proof. intros [s w]. split; reflexivity. Qed.

Ltac walk_store :=
  repeat first
    [ apply same_store_show | apply same_store_set_url | apply same_store_set_query
    | apply steps_ret, same_store_refl
    | apply steps_lift, same_store_refl
    | apply steps_get_session, same_store_refl
    | apply steps_and_then; [apply same_store_refl|]
    | apply steps_for_enumerate; [apply same_store_refl | apply same_store_trans | intros ? ?]
    | apply steps_bind; [apply same_store_trans | | intros ?]
    | match goal with |- steps _ (if ?b then _ else _) => destruct b end ].







Lemma same_session_refl (x : state) : same_session x x.
Proof. reflexivity. Qed.

Lemma same_session_trans (x y z : state) :
  same_session x y -> same_session y z -> same_session x z.
Proof. unfold same_session. congruence. Qed.

Lemma same_session_show k text : steps (Image:=Image) same_session (show k text).
Proof. intros sw. apply show_session. Qed.

Lemma same_session_generate client (images : list Image) si p :
  steps same_session (call_generate json_loads client images si p).
Proof. intros sw. apply call_generate_session. Qed.

(** The first three tabs do not write to the session. *)
Lemma first_tabs_same_session client (images : list Image) subj :
  steps same_session (flashcards_tab json_loads client images subj)
  /\ steps same_session (quiz_tab json_loads client images subj)
  /\ steps same_session (explainer_tab json_loads client images subj).
Proof.
  repeat split.
  - apply steps_flashcards_tab;
      [ apply same_session_refl | apply same_session_trans
      | apply same_session_show | apply same_session_generate ].
  - apply steps_quiz_tab;
      [ apply same_session_refl | apply same_session_trans
      | apply same_session_show | apply same_session_generate ].
  - apply steps_explainer_tab;
      [ apply same_session_refl | apply same_session_trans
      | apply same_session_show | apply same_session_generate ].
Qed.


Lemma sidebar_result files (s : session (Image:=Image)) (w : world) :
  exists page, sidebar files (s, w) = (Ok tt, (s, World (cache w) (remote_log w) page)).
Proof.
  assert (Hloop : forall (l : list File) i (w0 : world (Image:=Image)),
            exists page,
              for_enumerate (fun _ f => show StImage [Lit (file_name f)]) i l (s, w0)
              = (Ok tt, (s, World (cache w0) (remote_log w0) page))).
  { induction l as [|f l IH]; intros i w0; cbn [for_enumerate].
    - exists (screen w0). now destruct w0.
    - rewrite bind_show. destruct (IH (S i) (st StImage [Lit (file_name f)] w0)) as [page ->].
      now exists page. }
  unfold sidebar. rewrite bind_show.
  destruct files as [|f files].
  - eexists. reflexivity.
  - rewrite bind_show.
    destruct (Hloop (f :: files) 0 (st StSubheader [Lit "Notes Preview"]
                                     (st StHeader [Lit "Upload Notes"] w))) as [page ->].
    now exists page.
Qed.

(** With a client and at least one file, a click on Analyze runs the
    trigger and then the four tabs, from an empty cache. *)
Lemma script_click (c : Client) f files subj (s : session) (w : world) :
  exists page,
    script json_loads image_open (PassInput (Some c) (f :: files) subj true) (s, w)
    = results json_loads (Some c)
        (Session true None PNone
           (match open_all image_open (f :: files) with inl imgs => imgs | inr _ => [] end)
           subj,
         World ∅ (remote_log w) page).
Proof.
  unfold script. cbn [api_client uploaded_files subject_input clicked].
  destruct (sidebar_result (f :: files) s
              (st StCaption [Lit "Use Gemini StudyPal to create flashcards, quizzes, and explanations from your notes."]
                 (st StTitle [Lit "Your Gemini StudyPal"]
                    (World (cache w) (remote_log w) [])))) as [page Hside].
  pose proof (analyze_trigger_result (f :: files) subj s
                (World (cache w) (remote_log w) page)) as Htrigger.
  destruct (open_all image_open (f :: files)) as [imgs|e]; eexists;
    rewrite (bind_ok new_page _ (s, w) (s, World (cache w) (remote_log w) []) tt eq_refl);
    rewrite (bind_ok (ret tt) _ _ _ tt eq_refl);
    rewrite !bind_show;
    rewrite (bind_ok _ _ _ _ tt Hside);
    rewrite (bind_ok _ _ _ _ tt Htrigger);
    rewrite bind_get_session; reflexivity.
Qed.

(** *** Payloads that miss a required key *)

(** The explainer tab checks for its key: an object without
    ['tutor_response'] gives the warning. *)
Lemma explainer_without_key_warns client (images : list Image) subj
    (s : session) (w : world) d :
  cache w !! (solver_sys_instruction subj, solver_prompt) = Some (PDict d) ->
  dict_get d "tutor_response" = None ->
  explainer_tab json_loads client images subj (s, w)
  = (Ok tt, (s, st StWarning [Lit "Could not generate the Explainer."]
                  (st StHeader [Lit "Step-by-Step Problem Solver & Explainer"] w))).
Proof.
  intros Hhit Hkey. unfold explainer_tab. rewrite bind_show.
  unfold bind at 1. unfold call_generate.
  rewrite (generate_hit json_loads client images _ _
             (st StHeader [Lit "Step-by-Step Problem Solver & Explainer"] w) (PDict d) Hhit).
  destruct d as [|kv d]; [reflexivity|].
  unfold bind, and_then, lift, contains. cbn [truthy]. rewrite Hkey. reflexivity.
Qed.

(** The video tab checks for both keys: an object without ['video_url']
    gives the warning and stores nothing. *)
Lemma video_without_url_warns client (images : list Image) subj
    (s : session) (w : world) d :
  video_url s = None ->
  cache w !! (video_sys_instruction subj, video_prompt) = Some (PDict d) ->
  dict_get d "video_url" = None ->
  video_tab json_loads client images subj (s, w)
  = (Ok tt, (s, st StWarning [Lit "Could not identify a topic or find a video URL. Try again."]
                  (st StHeader [Lit "Video Tutor"] w))).
Proof.
  intros Hurl Hhit Hkey. unfold video_tab. rewrite bind_show, bind_get_session.
  cbn [fst]. rewrite Hurl. cbn [url_truthy truthy].
  unfold bind at 1. unfold call_generate.
  rewrite (generate_hit json_loads client images _ _
             (st StHeader [Lit "Video Tutor"] w) (PDict d) Hhit).
  destruct d as [|kv d]; [reflexivity|].
  unfold bind, and_then, lift, contains. cbn [truthy]. rewrite Hkey. reflexivity.
Qed.

(** The flashcard tab does not: a first card without ['question'] makes
    it raise. *)
Lemma flashcards_without_question_raise client (images : list Image) subj
    (s : session) (w : world) d cards :
  cache w !! (fc_sys_instruction subj, fc_prompt) = Some (PList (PDict d :: cards)) ->
  dict_get d "question" = None ->
  flashcards_tab json_loads client images subj (s, w)
  = (Raise (KeyError "question"), (s, st StHeader [Lit "Flashcard Set"] w)).
Proof.
  intros Hhit Hkey. unfold flashcards_tab. rewrite bind_show.
  unfold bind at 1. unfold call_generate.
  rewrite (generate_hit json_loads client images _ _
             (st StHeader [Lit "Flashcard Set"] w) _ Hhit).
  unfold bind, lift, iterate, show_card, subscript. cbn [truthy for_enumerate].
  unfold bind, lift. rewrite Hkey. reflexivity.
Qed.

Ltac next_tab :=
  match goal with
  | |- context [bind ?m ?k ?sw] =>
      let e := fresh "e" in
      destruct (bind_cases m k sw) as [[e ->] | [[] [_ ->]]]
  end.




(** *** Further properties of [generate_content] *)

(** A call issues a request exactly when its key is not in the cache and
    there is a client, and then exactly one: the images followed by the
    prompt, under the system instruction. *)
Theorem generate_requests_on_miss_only client (images : list Image) si p (w : world) :
  remote_log (snd (generate_content json_loads client images si p w))
  = match cache w !! (si, p), client with
    | None, Some _ => (remote_log w ++ [Request images p si])%list
    | _, _ => remote_log w
    end.
Proof.
  destruct (cache w !! (si, p)) as [v|] eqn:Hkey.
  - now rewrite (generate_hit json_loads client images si p w v Hkey).
  - rewrite (generate_miss json_loads client images si p w Hkey). cbn [snd cache_put remote_log].
    destruct client as [c|]; [apply body_log | reflexivity].
Qed.

(** After a call the cache binds the call's key to the value the call
    returned, and every other entry is as before. *)
Theorem generate_binds_its_key client (images : list Image) si p (w : world) :
  let out := generate_content json_loads client images si p w in
  cache (snd out) = <[(si, p) := fst out]> (cache w)
  /\ forall k, k <> (si, p) -> cache (snd out) !! k = cache w !! k.
Proof.
  cbv zeta.
  assert (H : cache (snd (generate_content json_loads client images si p w))
              = <[(si, p) := fst (generate_content json_loads client images si p w)]> (cache w)).
  { destruct (cache w !! (si, p)) as [v|] eqn:Hkey.
    - rewrite (generate_hit json_loads client images si p w v Hkey). cbn.
      symmetry. now apply insert_id.
    - rewrite (generate_miss json_loads client images si p w Hkey). cbn.
      now rewrite body_cache. }
  split; [exact H|].
  intros k Hk. rewrite H. now apply lookup_insert_ne.
Qed.

(** When the remote call raises, or answers without text, the call
    returns [None], shows one error carrying the exception's message, and
    stores the [None]; nothing is raised to the caller. *)
Theorem generate_api_error_returns_none (c : Client) (images : list Image) si p
    (w : world) msg :
  cache w !! (si, p) = None ->
  api_failure (c (length (remote_log w)) (Request images p si)) = Some msg ->
  generate_content json_loads (Some c) images si p w
  = (PNone,
     cache_put (si, p) PNone
       (st StError [Lit "An API error occurred during content generation: "; Lit msg]
          (log_call (Request images p si) w))).
Proof.
  intros Hmiss Hfail.
  rewrite (generate_miss json_loads (Some c) images si p w Hmiss).
  unfold generate_content_body.
  destruct (c (length (remote_log w)) (Request images p si)) as [m|[text|]];
    cbn in Hfail; try discriminate; now inversion Hfail.
Qed.

(** *** Opening the uploaded files *)

(** The comprehension of line 184 gives one image per file, in the order
    of the files, or the message of the first file that does not open, the
    files before it having opened. *)
Theorem open_all_is_all_or_first_failure files :
  match open_all image_open files with
  | inl imgs => Forall2 (fun f img => image_open f = inl img) files imgs
  | inr e =>
      exists before f after,
        files = (before ++ f :: after)%list
        /\ image_open f = inr e
        /\ Forall (fun g => exists img, image_open g = inl img) before
  end.
Proof.
  induction files as [|f files IH]; cbn; [constructor|].
  destruct (image_open f) as [img|e] eqn:Hf.
  - destruct (open_all image_open files) as [imgs|e].
    + now constructor.
    + destruct IH as (before & g & after & -> & Hg & Hbefore).
      exists (f :: before), g, after. repeat split; [exact Hg|].
      constructor; eauto.
  - exists [], f, files. repeat split; [exact Hf | constructor].
Qed.

(** *** What each tab does with a payload *)

(** A tab shows its header, calls [generate_content] and hands what it
    got to its rendering code. *)
Lemma tab_runs_render h client (images : list Image) si p
    (render : pyval -> M (Image:=Image) unit) (s : session) (w : world) :
  bind (show StHeader h) (fun _ => bind (call_generate json_loads client images si p) render)
       (s, w)
  = render (fst (generate_content json_loads client images si p (st StHeader h w)))
           (s, snd (generate_content json_loads client images si p (st StHeader h w))).
Proof.
  rewrite bind_show. unfold bind at 1. unfold call_generate.
  now destruct (generate_content json_loads client images si p (st StHeader h w)).
Qed.

(** A loop whose body finishes on the good items and raises on the others
    finishes exactly on the lists of good items. *)
Lemma for_enumerate_outcome {A} (body : nat -> A -> M (Image:=Image) unit) (ok : A -> bool) :
  (forall i x s w, ok x = true -> exists w', body i x (s, w) = (Ok tt, (s, w'))) ->
  (forall i x sw, ok x = false -> exists e, fst (body i x sw) = Raise e) ->
  forall l i s w,
    if forallb ok l
    then exists w', for_enumerate body i l (s, w) = (Ok tt, (s, w'))
    else exists e, fst (for_enumerate body i l (s, w)) = Raise e.
Proof.
  intros Hok Hbad. induction l as [|x l IH]; intros i s w; cbn [forallb for_enumerate].
  - eexists. reflexivity.
  - destruct (ok x) eqn:Hx; cbn [andb].
    + destruct (Hok i x s w Hx) as [w1 H1]. rewrite (bind_ok _ _ _ _ tt H1).
      apply IH.
    + destruct (Hbad i x (s, w) Hx) as [e He]. exists e.
      unfold bind. destruct (body i x (s, w)) as [[[]|e'] sw']; cbn in *; congruence.
Qed.

Lemma show_card_good i card (s : session (Image:=Image)) (w : world) :
  card_ok card = true -> exists w', show_card i card (s, w) = (Ok tt, (s, w')).
Proof.
  destruct card as [| | | | | |d]; try discriminate.
  unfold card_ok, has_key, show_card, bind, lift, subscript, show.
  destruct (dict_get d "question"), (dict_get d "answer"); try discriminate.
  intros _. eexists. reflexivity.
Qed.

Lemma show_card_bad i card (sw : state) :
  card_ok card = false -> exists e, fst (show_card i card sw) = Raise e.
Proof.
  destruct sw as [s w].
  destruct card as [| | | | | |d]; try (intros _; eexists; reflexivity).
  unfold card_ok, has_key, show_card, bind, lift, subscript, show.
  destruct (dict_get d "question"), (dict_get d "answer"); try discriminate;
    intros _; eexists; reflexivity.
Qed.

Lemma show_question_good i q (s : session (Image:=Image)) (w : world) :
  question_ok q = true -> exists w', show_question i q (s, w) = (Ok tt, (s, w')).
Proof.
  destruct q as [| | | | | |d]; try discriminate.
  unfold question_ok, has_key, show_question, bind, lift, subscript, items, show.
  destruct (dict_get d "question"); [|discriminate].
  destruct (dict_get d "options") as [[| | | | | |o]|]; try discriminate.
  destruct (dict_get d "correct_answer"); [|discriminate].
  destruct (dict_get d "explanation"); [|discriminate].
  intros _. eexists. reflexivity.
Qed.

Lemma show_question_bad i q (sw : state) :
  question_ok q = false -> exists e, fst (show_question i q sw) = Raise e.
Proof.
  destruct sw as [s w].
  destruct q as [| | | | | |d]; try (intros _; eexists; reflexivity).
  unfold question_ok, has_key, show_question, bind, lift, subscript, items, show.
  destruct (dict_get d "question"); [|intros _; eexists; reflexivity].
  destruct (dict_get d "options") as [[| | | | | |o]|]; try (intros _; eexists; reflexivity).
  destruct (dict_get d "correct_answer"); [|intros _; eexists; reflexivity].
  destruct (dict_get d "explanation"); [|intros _; eexists; reflexivity].
  discriminate.
Qed.

(** The rendering code shared by the flashcard and the quiz tab. *)
Lemma render_list_outcome (body : nat -> pyval -> M (Image:=Image) unit) (ok : pyval -> bool)
    (success warning : list piece) (v : pyval) (s : session) (w : world) :
  (forall i x s w, ok x = true -> exists w', body i x (s, w) = (Ok tt, (s, w'))) ->
  (forall i x sw, ok x = false -> exists e, fst (body i x sw) = Raise e) ->
  (forall k, ok (PStr k) = false) ->
  let out :=
    (if truthy v
     then bind (lift (iterate v)) (fun l =>
          bind (for_enumerate body 0 l) (fun _ => show StSuccess success))
     else show StWarning warning) (s, w) in
  (fst out = Ok tt
   <-> negb (truthy v) || match v with PList l => forallb ok l | _ => false end = true)
  /\ (truthy v = false -> out = (Ok tt, (s, st StWarning warning w)))
  /\ (truthy v = true -> fst out = Ok tt ->
      fst (snd out) = s
      /\ last (screen (snd (snd out))) = Some (Widget StSuccess success)).
Proof.
  intros Hgood Hbad Hstr out. subst out.
  destruct (truthy v) eqn:Hv; cbn [negb orb];
    [|split; [split; reflexivity | split; [reflexivity | discriminate]]].
  assert (Hloop : forall l,
            if forallb ok l
            then exists w', bind (for_enumerate body 0 l) (fun _ => show StSuccess success) (s, w)
                            = (Ok tt, (s, st StSuccess success w'))
            else exists e, fst (bind (for_enumerate body 0 l)
                                  (fun _ => show StSuccess success) (s, w)) = Raise e).
  { intros l. pose proof (for_enumerate_outcome body ok Hgood Hbad l 0 s w) as H.
    destruct (forallb ok l).
    - destruct H as [w' H]. exists w'. now rewrite (bind_ok _ _ _ _ tt H).
    - destruct H as [e H]. exists e. unfold bind.
      destruct (for_enumerate body 0 l (s, w)) as [[[]|e'] sw']; cbn in *; congruence. }
  assert (Hlist : forall l,
            let out := bind (for_enumerate body 0 l) (fun _ => show StSuccess success) (s, w) in
            (fst out = Ok tt <-> forallb ok l = true)
            /\ (fst out = Ok tt ->
                fst (snd out) = s
                /\ last (screen (snd (snd out))) = Some (Widget StSuccess success))).
  { intros l. cbv zeta. specialize (Hloop l). destruct (forallb ok l).
    - destruct Hloop as [w' ->]. cbn [fst snd]. split; [tauto|].
      intros _. split; [reflexivity|]. cbn. apply last_snoc.
    - destruct Hloop as [e ->]. split; [split; discriminate | discriminate]. }
  assert (Hraise : forall l, forallb ok l = false ->
            exists e, fst (bind (for_enumerate body 0 l)
                             (fun _ => show StSuccess success) (s, w)) = Raise e).
  { intros l Hl. specialize (Hloop l). now rewrite Hl in Hloop. }
  destruct v as [|b|z|f|t|l|d]; cbn [iterate];
    try (split; [split; [discriminate | discriminate] | split; [discriminate | discriminate]]).
  - (* a string: its characters are not items *)
    rewrite (bind_ok (lift (Ok (chars t))) _ (s, w) (s, w) (chars t) eq_refl).
    destruct t as [|c t]; [discriminate Hv|].
    destruct (Hraise (chars (String c t))) as [e He]; [cbn; now rewrite Hstr|].
    rewrite He. split; [split; discriminate | split; discriminate].
  - (* an array *)
    rewrite (bind_ok (lift (Ok l)) _ (s, w) (s, w) l eq_refl).
    destruct (Hlist l) as [H1 H2]. split; [exact H1 | split; [discriminate | intros _; exact H2]].
  - (* an object: its keys are not items *)
    rewrite (bind_ok (lift (Ok (map (fun kv => PStr (fst kv)) d))) _ (s, w) (s, w) _ eq_refl).
    destruct d as [|kv d]; [discriminate Hv|].
    destruct (Hraise (map (fun kv => PStr (fst kv)) (kv :: d))) as [e He];
      [cbn; now rewrite Hstr|].
    rewrite He. split; [split; discriminate | split; discriminate].
Qed.

(** The flashcard tab finishes without an exception exactly on the
    payloads that are falsy or an array of objects that all have
    ['question'] and ['answer'].  A falsy payload (a failed generation, an
    empty array) gives the warning; a good array ends with the success
    message and leaves the session alone. *)
Theorem flashcards_tab_outcome client (images : list Image) subj (s : session) (w : world) :
  let g := generate_content json_loads client images (fc_sys_instruction subj) fc_prompt
             (st StHeader [Lit "Flashcard Set"] w) in
  let out := flashcards_tab json_loads client images subj (s, w) in
  (fst out = Ok tt <-> flashcards_safe (fst g) = true)
  /\ (truthy (fst g) = false
      -> out = (Ok tt, (s, st StWarning [Lit "Could not generate flashcards."] (snd g))))
  /\ (truthy (fst g) = true -> fst out = Ok tt ->
      fst (snd out) = s
      /\ last (screen (snd (snd out)))
         = Some (Widget StSuccess [Lit "Flashcards generated successfully."])).
Proof.
  cbv zeta. unfold flashcards_tab. rewrite tab_runs_render.
  apply (render_list_outcome show_card card_ok); intros.
  - now apply show_card_good.
  - now apply show_card_bad.
  - reflexivity.
Qed.

(** The quiz tab finishes without an exception exactly on the payloads
    that are falsy or an array of objects that all have ['question'],
    ['options'] (an object), ['correct_answer'] and ['explanation'].  A
    falsy payload gives the warning; a good array ends with the success
    message and leaves the session alone. *)
Theorem quiz_tab_outcome client (images : list Image) subj (s : session) (w : world) :
  let g := generate_content json_loads client images (quiz_sys_instruction subj) quiz_prompt
             (st StHeader [Lit "Multiple-Choice Quiz"] w) in
  let out := quiz_tab json_loads client images subj (s, w) in
  (fst out = Ok tt <-> quiz_safe (fst g) = true)
  /\ (truthy (fst g) = false
      -> out = (Ok tt, (s, st StWarning [Lit "Could not generate the quiz."] (snd g))))
  /\ (truthy (fst g) = true -> fst out = Ok tt ->
      fst (snd out) = s
      /\ last (screen (snd (snd out)))
         = Some (Widget StSuccess [Lit "Quiz generated successfully."])).
Proof.
  cbv zeta. unfold quiz_tab. rewrite tab_runs_render.
  apply (render_list_outcome show_question question_ok); intros.
  - now apply show_question_good.
  - now apply show_question_bad.
  - reflexivity.
Qed.

(** The explainer tab finishes without an exception exactly on the
    payloads that are falsy, or an object, or an array or string in which
    [in] does not find ['tutor_response']; it never writes to the session.
    A falsy payload gives the warning, and so does an object without the
    key; an object with the key has its value shown. *)
Theorem explainer_tab_outcome client (images : list Image) subj (s : session) (w : world) :
  let g := generate_content json_loads client images (solver_sys_instruction subj) solver_prompt
             (st StHeader [Lit "Step-by-Step Problem Solver & Explainer"] w) in
  let out := explainer_tab json_loads client images subj (s, w) in
  (fst out = Ok tt <-> explainer_safe (fst g) = true)
  /\ fst (snd out) = s
  /\ (truthy (fst g) = false
      -> out = (Ok tt, (s, st StWarning [Lit "Could not generate the Explainer."] (snd g))))
  /\ (forall d, fst g = PDict d -> dict_get d "tutor_response" = None
      -> out = (Ok tt, (s, st StWarning [Lit "Could not generate the Explainer."] (snd g))))
  /\ (forall d r, fst g = PDict d -> dict_get d "tutor_response" = Some r
      -> out = (Ok tt, (s, st StSuccess [Lit "Explainer generated successfully."]
                            (st StMarkdown [Val r]
                               (st StInfo [Lit "Tutor's Analysis:"] (snd g)))))).
Proof.
  cbv zeta. unfold explainer_tab. rewrite tab_runs_render.
  destruct (generate_content json_loads client images (solver_sys_instruction subj)
              solver_prompt (st StHeader [Lit "Step-by-Step Problem Solver & Explainer"] w))
    as [v w1].
  cbn [fst snd]. unfold explainer_safe, and_then, bind, lift, contains, subscript, show.
  destruct v as [|b|z|f|t|l|d]; cbn [truthy negb orb].
  - repeat split; congruence.
  - destruct b; repeat split; try discriminate; congruence.
  - destruct (negb (z =? 0)%Z); repeat split; try discriminate; congruence.
  - destruct (negb (PrimFloat.eqb f 0)); repeat split; try discriminate; congruence.
  - destruct (negb (String.eqb t "")); cbn [negb orb]; [|repeat split; congruence].
    destruct (is_substring "tutor_response" t); repeat split; try discriminate; congruence.
  - destruct l as [|x l]; cbn [negb orb]; [repeat split; congruence|].
    destruct (existsb (is_str "tutor_response") (x :: l));
      repeat split; try discriminate; congruence.
  - destruct d as [|kv d]; cbn [negb orb].
    + repeat split; intros; try discriminate;
        try match goal with H : PDict _ = PDict _ |- _ => inversion H; subst; clear H end;
        try discriminate; congruence.
    + destruct (dict_get (kv :: d) "tutor_response") as [r|] eqn:Hr;
        repeat split; intros; try discriminate;
        try match goal with H : PDict _ = PDict _ |- _ => inversion H; subst; clear H end;
        congruence.
Qed.


(** With no URL in the session, a payload that is falsy, or an object
    that lacks one of the two keys, makes the video tab show its warning
    and store nothing. *)
Theorem video_tab_missing_key_warns client (images : list Image) subj
    (s : session) (w : world) :
  let g := generate_content json_loads client images (video_sys_instruction subj) video_prompt
             (st StHeader [Lit "Video Tutor"] w) in
  url_truthy (video_url s) = false ->
  (truthy (fst g) = false
   \/ exists d, fst g = PDict d
                /\ has_key "video_url" d && has_key "video_search_query" d = false) ->
  video_tab json_loads client images subj (s, w)
  = (Ok tt,
     (s, st StWarning [Lit "Could not identify a topic or find a video URL. Try again."]
           (snd g))).
Proof.
  intros g Hurl Hbad. subst g. unfold video_tab.
  rewrite bind_show, bind_get_session. cbn [fst]. rewrite Hurl.
  unfold bind at 1. unfold call_generate.
  destruct (generate_content json_loads client images (video_sys_instruction subj)
              video_prompt (st StHeader [Lit "Video Tutor"] w)) as [v w1].
  cbn [fst snd] in *.
  unfold and_then, bind, lift, contains, show.
  destruct Hbad as [Hv | (d & -> & Hkeys)].
  - now rewrite Hv.
  - unfold has_key in Hkeys. destruct d as [|kv d]; [reflexivity|]. cbn [truthy].
    destruct (dict_get (kv :: d) "video_url"); [|reflexivity].
    destruct (dict_get (kv :: d) "video_search_query"); [discriminate | reflexivity].
Qed.

(** With no URL in the session, a payload that has both keys but whose
    ['video_url'] is not a string makes the video tab raise
    [AttributeError] (there is no [strip] to call) before anything is
    stored or shown. *)
Theorem video_tab_url_not_a_string_raises client (images : list Image) subj
    (s : session) (w : world) d u :
  let g := generate_content json_loads client images (video_sys_instruction subj) video_prompt
             (st StHeader [Lit "Video Tutor"] w) in
  url_truthy (video_url s) = false ->
  fst g = PDict d ->
  dict_get d "video_url" = Some u ->
  (forall raw, u <> PStr raw) ->
  has_key "video_search_query" d = true ->
  video_tab json_loads client images subj (s, w)
  = (Raise (AttributeError "strip"), (s, snd g)).
Proof.
  intros g Hurl Hd Hu Hnot Hq. subst g. unfold video_tab.
  rewrite bind_show, bind_get_session. cbn [fst]. rewrite Hurl.
  unfold bind at 1. unfold call_generate.
  destruct (generate_content json_loads client images (video_sys_instruction subj)
              video_prompt (st StHeader [Lit "Video Tutor"] w)) as [v w1].
  cbn [fst snd] in *. subst v.
  destruct d as [|kv d]; [discriminate Hu|].
  unfold has_key in Hq.
  unfold and_then, bind, lift, contains, subscript, py_strip.
  cbn [truthy]. rewrite Hu.
  destruct (dict_get (kv :: d) "video_search_query"); [|discriminate Hq].
  destruct u as [| | | |raw| |]; try reflexivity.
  now destruct (Hnot raw).
Qed.

(** *** How many requests a run issues *)

Lemma grows_refl (x : state) : grows 0 x x.
Proof. exists []. split; [now rewrite app_nil_r | reflexivity]. Qed.

Lemma grows_trans n m (x y z : state) : grows n x y -> grows m y z -> grows (n + m) x z.
Proof.
  intros (l1 & H1 & Hn) (l2 & H2 & Hm). exists (l1 ++ l2)%list. split.
  - now rewrite H2, H1, app_assoc.
  - rewrite length_app. lia.
Qed.

Lemma grows_le n m (x y : state) : n <= m -> grows n x y -> grows m x y.
Proof. intros Hle (l & H & Hn). exists l. split; [exact H | lia]. Qed.

Lemma grows_same_log (x y : state) :
  remote_log (snd y) = remote_log (snd x) -> grows 0 x y.
Proof. intros H. exists []. split; [now rewrite app_nil_r | reflexivity]. Qed.

Lemma steps_grows_bind {A B} n m (mm : M (Image:=Image) A) (k : A -> M B) :
  steps (grows n) mm -> (forall a, steps (grows m) (k a)) -> steps (grows (n + m)) (bind mm k).
Proof.
  intros Hm Hk sw. unfold bind.
  specialize (Hm sw). destruct (mm sw) as [[a|e] sw1]; cbn [snd] in *.
  - eapply grows_trans; [exact Hm | apply Hk].
  - eapply grows_le; [|exact Hm]. lia.
Qed.

Lemma steps_grows_le {A} n m (mm : M (Image:=Image) A) :
  n <= m -> steps (grows n) mm -> steps (grows m) mm.
Proof. intros Hle H sw. eapply grows_le; [exact Hle | apply H]. Qed.

Lemma steps_store_grows {A} (mm : M (Image:=Image) A) :
  steps same_store mm -> steps (grows 0) mm.
Proof. intros H sw. apply grows_same_log, (H sw). Qed.

Lemma grows_show k text : steps (Image:=Image) (grows 0) (show k text).
Proof. apply steps_store_grows, same_store_show. Qed.

Lemma grows_generate client (images : list Image) si p :
  steps (grows 1) (call_generate json_loads client images si p).
Proof.
  intros [s w]. unfold call_generate.
  pose proof (generate_log json_loads client images si p w) as H.
  destruct (generate_content json_loads client images si p w) as [v w1]. cbn [fst snd] in *.
  destruct H as [H|H].
  - eapply grows_le; [|apply grows_same_log, H]. lia.
  - eexists. split; [exact H | reflexivity].
Qed.

Lemma grows_render_tab h client (images : list Image) si p
    (render : pyval -> M (Image:=Image) unit) :
  (forall v, steps same_store (render v)) ->
  steps (grows 1)
    (bind (show StHeader h) (fun _ => bind (call_generate json_loads client images si p) render)).
Proof.
  intros Hrender.
  apply (steps_grows_bind 0 1); [apply grows_show | intros _].
  apply (steps_grows_bind 1 0); [apply grows_generate | intros v].
  apply steps_store_grows, Hrender.
Qed.

Lemma grows_video_tab client (images : list Image) subj :
  steps (grows 1) (video_tab json_loads client images subj).
Proof.
  unfold video_tab.
  apply (steps_grows_bind 0 1); [apply grows_show | intros _].
  apply (steps_grows_bind 0 1); [intros sw; apply grows_refl | intros s0].
  destruct (url_truthy (video_url s0)).
  - apply (steps_grows_le 0); [lia|]. apply steps_store_grows. walk_store.
  - apply (steps_grows_bind 1 0); [apply grows_generate | intros v].
    apply steps_store_grows. walk_store.
Qed.

Lemma grows_results client : steps (Image:=Image) (grows 4) (results json_loads client).
Proof.
  unfold results.
  apply (steps_grows_bind 0 4); [intros sw; apply grows_refl | intros s0; cbv zeta].
  apply (steps_grows_bind 0 4); [apply grows_show | intros _].
  apply (steps_grows_bind 1 3).
  { unfold flashcards_tab, show_card. apply grows_render_tab. intros v. walk_store. }
  intros _. apply (steps_grows_bind 1 2).
  { unfold quiz_tab, show_question. apply grows_render_tab. intros v. walk_store. }
  intros _. apply (steps_grows_bind 1 1).
  { unfold explainer_tab. apply grows_render_tab. intros v. walk_store. }
  intros _. apply grows_video_tab.
Qed.

(** A run of the script never removes a request from the log and adds at
    most four, one per tab; a session of [n] runs adds at most [4 * n]. *)
Theorem script_issues_at_most_four_requests :
  (forall i (sw : state), grows 4 sw (snd (script json_loads image_open i sw)))
  /\ (forall inputs (sw : state),
        grows (4 * length inputs) sw (run_passes json_loads image_open inputs sw)).
Proof.
  assert (Hscript : forall i, steps (Image:=Image) (grows 4) (script json_loads image_open i)).
  { intros i. unfold script.
    apply (steps_grows_bind 0 4); [intros [s w]; now apply grows_same_log | intros _].
    apply (steps_grows_bind 0 4);
      [destruct (api_client i); [intros sw; apply grows_refl | apply grows_show] | intros _].
    apply (steps_grows_bind 0 4); [apply grows_show | intros _].
    apply (steps_grows_bind 0 4); [apply grows_show | intros _].
    apply (steps_grows_bind 0 4).
    { apply steps_sidebar; [apply grows_refl | apply (grows_trans 0 0) | apply grows_show]. }
    intros _. destruct (uploaded_files i) as [|f files].
    { apply (steps_grows_le 0); [lia | apply grows_show]. }
    destruct (api_client i) as [c|].
    2:{ apply (steps_grows_le 0); [lia | intros sw; apply grows_refl]. }
    apply (steps_grows_bind 0 4).
    { destruct (clicked i); [|intros sw; apply grows_refl].
      intros [s w]. rewrite analyze_trigger_result. apply grows_same_log.
      destruct (open_all image_open (f :: files)); reflexivity. }
    intros _. apply (steps_grows_bind 0 4); [intros sw; apply grows_refl | intros s0].
    destruct (ready s0); [apply grows_results|].
    apply (steps_grows_le 0); [lia | intros sw; apply grows_refl]. }
  split; [intros i sw; apply Hscript|].
  induction inputs as [|i rest IH]; intros sw; cbn [run_passes length].
  - apply grows_refl.
  - replace (4 * S (length rest)) with (4 + 4 * length rest) by lia.
    eapply grows_trans; [apply Hscript | apply IH].
Qed.

(** *** When a run reaches the tabs *)

(** Everything the script does before it looks at the files only draws. *)
Lemma script_prefix i (s : session) (w : world) :
  exists page,
    script json_loads image_open i (s, w)
    = match uploaded_files i, api_client i with
      | [], _ =>
          show StInfo [Lit "Please upload one or more images of your notes or textbook to begin."]
      | _, None => ret tt
      | _, Some _ =>
          bind (if clicked i then analyze_trigger image_open (uploaded_files i) (subject_input i)
                else ret tt) (fun _ =>
          bind get_session (fun s0 =>
          if ready s0 then results json_loads (api_client i) else ret tt))
      end (s, World (cache w) (remote_log w) page).
Proof.
  unfold script.
  rewrite (bind_ok new_page _ (s, w) (s, World (cache w) (remote_log w) []) tt eq_refl).
  destruct (api_client i) as [c|].
  - rewrite (bind_ok (ret tt) _ _ _ tt eq_refl). rewrite !bind_show.
    destruct (sidebar_result (uploaded_files i) s
                (st StCaption [Lit "Use Gemini StudyPal to create flashcards, quizzes, and explanations from your notes."]
                   (st StTitle [Lit "Your Gemini StudyPal"]
                      (World (cache w) (remote_log w) [])))) as [page Hside].
    rewrite (bind_ok _ _ _ _ tt Hside). now exists page.
  - rewrite !bind_show.
    destruct (sidebar_result (uploaded_files i) s
                (st StCaption [Lit "Use Gemini StudyPal to create flashcards, quizzes, and explanations from your notes."]
                   (st StTitle [Lit "Your Gemini StudyPal"]
                      (st StError [Lit "GEMINI_API_KEY not found. Please set it in the .env file."]
                         (World (cache w) (remote_log w) []))))) as [page Hside].
    rewrite (bind_ok _ _ _ _ tt Hside). now exists page.
Qed.




(** *** A rerun with everything cached *)

Lemma generate_hit_then_render client (images : list Image) si p
    (render : pyval -> M (Image:=Image) unit) (sw : state) :
  (forall v, steps same_store (render v)) ->
  is_Some (cache (snd sw) !! (si, p)) ->
  same_store sw (snd (bind (call_generate json_loads client images si p) render sw)).
Proof.
  destruct sw as [s w]. cbn [snd]. intros Hrender [v Hhit].
  unfold bind, call_generate.
  rewrite (generate_hit json_loads client images si p w v Hhit).
  apply (Hrender v (s, w)).
Qed.

Lemma render_tab_hit h client (images : list Image) si p
    (render : pyval -> M (Image:=Image) unit) (sw : state) :
  (forall v, steps same_store (render v)) ->
  is_Some (cache (snd sw) !! (si, p)) ->
  same_store sw
    (snd (bind (show StHeader h)
            (fun _ => bind (call_generate json_loads client images si p) render) sw)).
Proof.
  destruct sw as [s w]. intros Hrender Hhit. rewrite bind_show.
  apply (generate_hit_then_render client images si p render (s, st StHeader h w) Hrender Hhit).
Qed.

Lemma video_tab_hit client (images : list Image) subj (sw : state) :
  is_Some (cache (snd sw) !! (video_sys_instruction subj, video_prompt)) ->
  same_store sw (snd (video_tab json_loads client images subj sw)).
Proof.
  destruct sw as [s w]. intros Hhit. unfold video_tab.
  rewrite bind_show, bind_get_session. cbn [fst].
  destruct (url_truthy (video_url s)).
  - assert (H : steps same_store
                  (bind (show (Image:=Image) StSubheader
                           [Lit "Video suggested for: **"; Val (video_search_query s); Lit "**"])
                     (fun _ => bind (show StVideo [Lit (default "" (video_url s))])
                     (fun _ => show StSuccess [Lit "Video embedded from a previous analysis."]))))
      by walk_store.
    apply (H (s, st StHeader [Lit "Video Tutor"] w)).
  - match goal with
    | |- context [bind (call_generate _ _ _ ?si ?p) ?render ?sw0] =>
        apply (generate_hit_then_render client images si p render sw0); [|exact Hhit]
    end.
    intros v. walk_store.
Qed.

Lemma results_all_cached client (s : session (Image:=Image)) (w : world) :
  all_cached (image_list s) (subject s) w ->
  same_store (s, w) (snd (results json_loads client (s, w))).
Proof.
  unfold all_cached, four_requests. intros Hall.
  apply Forall_cons in Hall as [H1 Hall]. apply Forall_cons in Hall as [H2 Hall].
  apply Forall_cons in Hall as [H3 Hall]. apply Forall_cons in Hall as [H4 _].
  cbn [config_system_instruction contents_prompt] in *.
  unfold results. rewrite bind_get_session. cbn [fst]. rewrite bind_show.
  set (sw0 := (s, st StTabs [Lit "Flashcards"; Lit "Quiz"; Lit "Explainer"; Lit "Video Tutor"] w)).
  assert (H0 : same_store (s, w) sw0) by (split; reflexivity).
  assert (Hkeep : forall (x y : state) k,
            same_store x y -> is_Some (cache (snd x) !! k) -> is_Some (cache (snd y) !! k)).
  { intros x y k [Hc _] Hk. now rewrite Hc. }
  (* flashcards *)
  assert (T1 : same_store sw0 (snd (flashcards_tab json_loads client (image_list s) (subject s) sw0))).
  { unfold flashcards_tab, show_card. apply render_tab_hit; [intros v; walk_store | exact H1]. }
  next_tab; [cbn [snd]; exact (same_store_trans _ _ _ H0 T1)|].
  set (sw1 := snd (flashcards_tab json_loads client (image_list s) (subject s) sw0)) in *.
  assert (S1 : same_store (s, w) sw1) by exact (same_store_trans _ _ _ H0 T1).
  (* quiz *)
  assert (T2 : same_store sw1 (snd (quiz_tab json_loads client (image_list s) (subject s) sw1))).
  { unfold quiz_tab, show_question.
    apply render_tab_hit; [intros v; walk_store | exact (Hkeep _ _ _ S1 H2)]. }
  next_tab; [cbn [snd]; exact (same_store_trans _ _ _ S1 T2)|].
  set (sw2 := snd (quiz_tab json_loads client (image_list s) (subject s) sw1)) in *.
  assert (S2 : same_store (s, w) sw2) by exact (same_store_trans _ _ _ S1 T2).
  (* explainer *)
  assert (T3 : same_store sw2 (snd (explainer_tab json_loads client (image_list s) (subject s) sw2))).
  { unfold explainer_tab.
    apply render_tab_hit; [intros v; walk_store | exact (Hkeep _ _ _ S2 H3)]. }
  next_tab; [cbn [snd]; exact (same_store_trans _ _ _ S2 T3)|].
  set (sw3 := snd (explainer_tab json_loads client (image_list s) (subject s) sw2)) in *.
  assert (S3 : same_store (s, w) sw3) by exact (same_store_trans _ _ _ S2 T3).
  (* video *)
  eapply same_store_trans; [exact S3|].
  apply video_tab_hit. exact (Hkeep _ _ _ S3 H4).
Qed.

(** A rerun without a click, in a session whose four results are in the
    cache (the state a finished Analyze run leaves), issues no request and
    leaves the cache as it is: looking at the tabs again costs no call. *)
Theorem idle_rerun_with_cached_results_is_free client files subj
    (s : session (Image:=Image)) (w : world) :
  all_cached (image_list s) (subject s) w ->
  let out := script json_loads image_open (PassInput client files subj false) (s, w) in
  remote_log (snd (snd out)) = remote_log w
  /\ cache (snd (snd out)) = cache w.
Proof.
  intros Hall out. subst out.
  destruct (script_prefix (PassInput client files subj false) s w) as [page ->].
  cbn [uploaded_files api_client clicked subject_input].
  destruct files as [|f files]; [split; reflexivity|].
  destruct client as [c|]; [|split; reflexivity].
  rewrite (bind_ok (ret tt) _ _ _ tt eq_refl). rewrite bind_get_session. cbn [fst].
  destruct (ready s); [|split; reflexivity].
  destruct (results_all_cached (Some c) s (World (cache w) (remote_log w) page) Hall)
    as [Hc Hl].
  split; [exact Hl | exact Hc].
Qed.

(** *** What a finished Analyze run leaves in the cache *)

Lemma cache_kept_refl (x : state) : cache_kept x x.
Proof. intros k H. exact H. Qed.

Lemma cache_kept_trans (x y z : state) : cache_kept x y -> cache_kept y z -> cache_kept x z.
Proof. intros H1 H2 k H. apply H2, H1, H. Qed.

Lemma cache_kept_same_store (x y : state) : same_store x y -> cache_kept x y.
Proof. intros [Hc _] k H. now rewrite Hc. Qed.

Lemma cache_kept_show k text : steps (Image:=Image) cache_kept (show k text).
Proof. intros sw. apply cache_kept_same_store, same_store_show. Qed.

Lemma cache_kept_generate client (images : list Image) si p :
  steps cache_kept (call_generate json_loads client images si p).
Proof.
  intros [s w] k Hk. unfold call_generate.
  pose proof (generate_stores json_loads client images si p w) as Hown.
  destruct (cache w !! (si, p)) as [v|] eqn:Hkey.
  - rewrite (generate_hit json_loads client images si p w v Hkey). exact Hk.
  - rewrite (generate_miss json_loads client images si p w Hkey) in *. cbn in *.
    destruct (decide ((si, p) = k)) as [<-|Hne].
    + rewrite Hown. eauto.
    + rewrite lookup_insert_ne by exact Hne. now rewrite body_cache.
Qed.

Lemma cache_kept_tabs client (images : list Image) subj :
  steps cache_kept (flashcards_tab json_loads client images subj)
  /\ steps cache_kept (quiz_tab json_loads client images subj)
  /\ steps cache_kept (explainer_tab json_loads client images subj)
  /\ steps cache_kept (video_tab json_loads client images subj).
Proof.
  repeat split.
  - apply steps_flashcards_tab;
      [ apply cache_kept_refl | apply cache_kept_trans
      | apply cache_kept_show | apply cache_kept_generate ].
  - apply steps_quiz_tab;
      [ apply cache_kept_refl | apply cache_kept_trans
      | apply cache_kept_show | apply cache_kept_generate ].
  - apply steps_explainer_tab;
      [ apply cache_kept_refl | apply cache_kept_trans
      | apply cache_kept_show | apply cache_kept_generate ].
  - apply steps_video_tab;
      [ apply cache_kept_refl | apply cache_kept_trans
      | apply cache_kept_show | apply cache_kept_generate
      | intros u sw; apply cache_kept_same_store, same_store_set_url
      | intros q sw; apply cache_kept_same_store, same_store_set_query ].
Qed.

(** Whatever its outcome, a tab leaves its own key in the cache. *)
Lemma render_tab_caches h client (images : list Image) si p
    (render : pyval -> M (Image:=Image) unit) (sw : state) :
  (forall v, steps same_store (render v)) ->
  is_Some (cache (snd (snd (bind (show StHeader h)
             (fun _ => bind (call_generate json_loads client images si p) render) sw)))
           !! (si, p)).
Proof.
  destruct sw as [s w]. intros Hrender. rewrite tab_runs_render.
  pose proof (generate_stores json_loads client images si p (st StHeader h w)) as Hown.
  destruct (generate_content json_loads client images si p (st StHeader h w)) as [v w1].
  cbn [fst snd] in *.
  destruct (Hrender v (s, w1)) as [Hc _]. cbn [snd] in Hc. rewrite Hc, Hown. eauto.
Qed.

Lemma video_tab_caches client (images : list Image) subj (sw : state) :
  url_truthy (video_url (fst sw)) = false ->
  is_Some (cache (snd (snd (video_tab json_loads client images subj sw)))
           !! (video_sys_instruction subj, video_prompt)).
Proof.
  destruct sw as [s w]. cbn [fst]. intros Hurl. unfold video_tab.
  rewrite bind_show, bind_get_session. cbn [fst]. rewrite Hurl.
  match goal with
  | |- context [bind (call_generate _ ?c ?im ?si ?p) ?render (?s0, ?w0)] =>
      assert (Hrender : forall v, steps same_store (render v)) by (intros v; walk_store);
      unfold bind at 1; unfold call_generate;
      pose proof (generate_stores json_loads c im si p w0) as Hown;
      destruct (generate_content json_loads c im si p w0) as [v w1];
      cbn [fst snd] in *;
      destruct (Hrender v (s0, w1)) as [Hc _]
  end.
  cbn [snd] in Hc. cbn beta. rewrite Hc, Hown. eauto.
Qed.

Lemma results_cache_all client (s : session (Image:=Image)) (w : world) :
  url_truthy (video_url s) = false ->
  fst (results json_loads client (s, w)) = Ok tt ->
  all_cached (image_list s) (subject s) (snd (snd (results json_loads client (s, w)))).
Proof.
  intros Hurl. unfold results. rewrite bind_get_session. cbn [fst]. rewrite bind_show.
  set (sw0 := (s, st StTabs [Lit "Flashcards"; Lit "Quiz"; Lit "Explainer"; Lit "Video Tutor"] w)).
  destruct (first_tabs_same_session client (image_list s) (subject s)) as (Hs1 & Hs2 & Hs3).
  destruct (cache_kept_tabs client (image_list s) (subject s)) as (Hk1 & Hk2 & Hk3 & Hk4).
  unfold steps, same_session in Hs1, Hs2, Hs3.
  assert (C1 : is_Some (cache (snd (snd (flashcards_tab json_loads client
                          (image_list s) (subject s) sw0)))
                        !! (fc_sys_instruction (subject s), fc_prompt))).
  { unfold flashcards_tab, show_card. apply render_tab_caches. intros v. walk_store. }
  specialize (Hs1 sw0).
  next_tab; [discriminate|].
  set (sw1 := snd (flashcards_tab json_loads client (image_list s) (subject s) sw0)) in *.
  assert (C2 : is_Some (cache (snd (snd (quiz_tab json_loads client
                          (image_list s) (subject s) sw1)))
                        !! (quiz_sys_instruction (subject s), quiz_prompt))).
  { unfold quiz_tab, show_question. apply render_tab_caches. intros v. walk_store. }
  pose proof (Hk2 sw1 _ C1) as C1'.
  specialize (Hs2 sw1).
  next_tab; [discriminate|].
  set (sw2 := snd (quiz_tab json_loads client (image_list s) (subject s) sw1)) in *.
  assert (C3 : is_Some (cache (snd (snd (explainer_tab json_loads client
                          (image_list s) (subject s) sw2)))
                        !! (solver_sys_instruction (subject s), solver_prompt))).
  { unfold explainer_tab. apply render_tab_caches. intros v. walk_store. }
  pose proof (Hk3 sw2 _ C1') as C1''. pose proof (Hk3 sw2 _ C2) as C2'.
  specialize (Hs3 sw2).
  next_tab; [discriminate|].
  set (sw3 := snd (explainer_tab json_loads client (image_list s) (subject s) sw2)) in *.
  intros _.
  assert (Hurl3 : url_truthy (video_url (fst sw3)) = false).
  { rewrite Hs3, Hs2, Hs1. exact Hurl. }
  pose proof (video_tab_caches client (image_list s) (subject s) sw3 Hurl3) as C4.
  unfold all_cached, four_requests.
  repeat apply Forall_cons_2; [| | | |apply Forall_nil_2];
    cbn [config_system_instruction contents_prompt].
  - apply (Hk4 sw3), C1''.
  - apply (Hk4 sw3), C2'.
  - apply (Hk4 sw3), C3.
  - exact C4.
Qed.

(** After an Analyze run that finished, a rerun without a click issues no
    request, whatever the uploader, the subject box and the client now
    are: the four results come from the cache. *)
Theorem rerun_after_finished_analyze_is_free (c : Client) f files subj
    (s : session) (w : world) client' files' subj' :
  let first := script json_loads image_open (PassInput (Some c) (f :: files) subj true) (s, w) in
  fst first = Ok tt ->
  let second := script json_loads image_open (PassInput client' files' subj' false) (snd first) in
  remote_log (snd (snd second)) = remote_log (snd (snd first))
  /\ cache (snd (snd second)) = cache (snd (snd first)).
Proof.
  intros first Hok second. subst second.
  assert (Hall : all_cached (image_list (fst (snd first))) (subject (fst (snd first)))
                   (snd (snd first))).
  { subst first. destruct (script_click c f files subj s w) as [page Heq].
    rewrite Heq in *.
    match goal with
    | |- context [results json_loads (Some c) (?s0, ?w0)] =>
        destruct (same_run_results (Some c) (s0, w0)) as (_ & Himg & Hsubj);
        cbn [fst] in Himg, Hsubj; rewrite Himg, Hsubj;
        apply (results_cache_all (Some c) s0 w0); [reflexivity | exact Hok]
    end. }
  destruct (snd first) as [s1 w1]. cbn [fst snd] in *.
  destruct (script_prefix (PassInput client' files' subj' false) s1 w1) as [page ->].
  cbn [uploaded_files api_client clicked subject_input].
  destruct files' as [|f' files']; [split; reflexivity|].
  destruct client' as [c'|]; [|split; reflexivity].
  rewrite (bind_ok (ret tt) _ _ _ tt eq_refl). rewrite bind_get_session. cbn [fst].
  destruct (ready s1); [|split; reflexivity].
  destruct (results_all_cached (Some c') s1 (World (cache w1) (remote_log w1) page) Hall)
    as [Hc Hl].
  split; [exact Hl | exact Hc].
Qed.

End Script.

(** ** The URL cleaning *)

Lemma plain_head c t :
  plain (String c t) = true -> is_space c = false /\ Ascii.eqb c dquote = false /\ plain t = true.
Proof.
  cbn [plain]. destruct (is_space c), (Ascii.eqb c dquote), (plain t); cbn;
    intros H; try discriminate H; repeat split.
Qed.

Lemma lstrip_blank pad t : blank pad = true -> lstrip (pad +:+ t) = lstrip t.
Proof.
  induction pad as [|c pad IH]; [reflexivity|].
  intros H. cbn [blank] in H.
  change (lstrip (String c pad +:+ t))
    with (if is_space c then lstrip (pad +:+ t) else String c (pad +:+ t)).
  destruct (is_space c); [apply IH, H | discriminate].
Qed.

Lemma rstrip_blank pad : blank pad = true -> rstrip pad = EmptyString.
Proof.
  induction pad as [|c pad IH]; [reflexivity|].
  intros H. cbn [blank] in H. cbn [rstrip].
  destruct (is_space c); [|discriminate]. now rewrite (IH H).
Qed.

Lemma rstrip_app_blank t pad : blank pad = true -> rstrip (t +:+ pad) = rstrip t.
Proof.
  intros Hpad. induction t as [|c t IH]; [now apply rstrip_blank|].
  change (rstrip (String c t +:+ pad))
    with (match rstrip (t +:+ pad) with
          | EmptyString => if is_space c then EmptyString else String c EmptyString
          | t' => String c t'
          end).
  now rewrite IH.
Qed.

Lemma rstrip_ends_well t c :
  is_space c = false -> rstrip (t +:+ String c EmptyString) = t +:+ String c EmptyString.
Proof.
  intros Hc. induction t as [|a t IH].
  - change ((if is_space c then EmptyString else String c EmptyString) = String c EmptyString).
    now rewrite Hc.
  - change (rstrip (String a t +:+ String c EmptyString))
      with (match rstrip (t +:+ String c EmptyString) with
            | EmptyString => if is_space a then EmptyString else String a EmptyString
            | t' => String a t'
            end).
    rewrite IH. now destruct t.
Qed.

Lemma rstrip_plain s : plain s = true -> rstrip s = s.
Proof.
  induction s as [|c t IH]; [reflexivity|].
  intros H. destruct (plain_head c t H) as (Hc & _ & Ht).
  cbn [rstrip]. rewrite (IH Ht). destruct t; [now rewrite Hc | reflexivity].
Qed.

Lemma sub_end_quote_plain s : plain s = true -> sub_end_quote s = s.
Proof.
  induction s as [|c t IH]; [reflexivity|].
  intros H. destruct (plain_head c t H) as (_ & Hq & Ht).
  cbn [sub_end_quote]. rewrite Hq. cbn [andb]. now rewrite (IH Ht).
Qed.

Lemma sub_end_quote_closing s :
  plain s = true -> sub_end_quote (s +:+ String dquote EmptyString) = s.
Proof.
  induction s as [|c t IH]; [reflexivity|].
  intros H. destruct (plain_head c t H) as (_ & Hq & Ht).
  change (sub_end_quote (String c t +:+ String dquote EmptyString))
    with (if Ascii.eqb c dquote && at_dollar (t +:+ String dquote EmptyString)
          then t +:+ String dquote EmptyString
          else String c (sub_end_quote (t +:+ String dquote EmptyString))).
  rewrite Hq. cbn [andb]. now rewrite (IH Ht).
Qed.

(** A URL with no white space and no double quote in it is left as it
    is by the cleaning. *)
Theorem clean_url_keeps_plain s : plain s = true -> clean_url s = s.
Proof.
  intros H. unfold clean_url, strip.
  assert (Hl : lstrip s = s).
  { destruct s as [|c t]; [reflexivity|].
    destruct (plain_head c t H) as (Hc & _ & _). cbn [lstrip]. now rewrite Hc. }
  rewrite Hl, (rstrip_plain s H).
  destruct s as [|c t]; [reflexivity|].
  destruct (plain_head c t H) as (_ & Hq & Ht).
  cbn [re_sub_quotes]. rewrite Hq. now rewrite (sub_end_quote_plain t Ht).
Qed.

(** A URL with no white space and no double quote in it, wrapped in one
    pair of double quotes and with any white space around that, is cleaned
    to the URL itself. *)
Theorem clean_url_unwraps_quoted before s after :
  blank before = true -> plain s = true -> blank after = true ->
  clean_url (before +:+ quoted s +:+ after) = s.
Proof.
  intros Hb Hs Ha. unfold clean_url, strip.
  rewrite (lstrip_blank before _ Hb).
  assert (Hq : lstrip (quoted s +:+ after) = quoted s +:+ after) by reflexivity.
  rewrite Hq, (rstrip_app_blank (quoted s) after Ha).
  unfold quoted.
  change (String dquote (s +:+ String dquote EmptyString))
    with ((String dquote s) +:+ String dquote EmptyString).
  rewrite rstrip_ends_well by reflexivity.
  change (re_sub_quotes (String dquote s +:+ String dquote EmptyString))
    with (sub_end_quote (s +:+ String dquote EmptyString)).
  now apply sub_end_quote_closing.
Qed.


(** * Concrete runs *)


Example clean_url_spaces :
  clean_url ("  " +:+ quoted "https://youtu.be/abc" +:+ " ") = "https://youtu.be/abc".
Proof. reflexivity. Qed.

Example clean_url_two_pairs : clean_url (quoted (quoted "x")) = quoted "x".
Proof. reflexivity. Qed.




(** C3 fails on the code: a flashcards payload whose cards lack
    ['question'] makes the flashcard tab raise [KeyError] instead of showing
    its warning.  The explainer tab, given an object without
    ['tutor_response'], does show its warning. *)
Theorem C3_flashcards_without_question_raise :
  fst (flashcards_tab demo_loads (Some (scripted_client [Reply (Some no_question_text)]))
         [1] "Biology" fresh_run)
  = Raise (KeyError "question")
  /\ (let out := explainer_tab demo_loads (Some (scripted_client [Reply (Some null_query_text)]))
                   [1] "Biology" fresh_run in
      fst out = Ok tt
      /\ last (screen (snd (snd out)))
         = Some (Widget StWarning [Lit "Could not generate the Explainer."])).
Proof. vm_compute. repeat split. Qed.

Lemma C5_witness :
  let c := scripted_client [Reply (Some cards_text)] in
  let first := generate_content demo_loads (Some c) [1; 2] (fst biology_cards)
                 (snd biology_cards) new_world in
  let second := generate_content demo_loads (Some c) [1; 2] (fst biology_cards)
                  (snd biology_cards) (snd first) in
  fst first = cards_payload
  /\ fst second = fst first
  /\ remote_log (snd second) = remote_log (snd first)
  /\ length (remote_log (snd second)) <= 1.
Proof.
  intros c first second.
  assert (H : fst first = cards_payload) by (vm_compute; reflexivity).
  split; [exact H|].
  apply (C5_second_call_is_cache_hit demo_loads c [1; 2]
           (fst biology_cards) (snd biology_cards) new_world).
  fold first. rewrite H. discriminate.
Defined.



Lemma C8_witness :
  let c := scripted_client [Reply (Some prose_text)] in
  demo_loads prose_text = inr "Expecting value: line 1 column 1 (char 0)"
  /\ fst (generate_content demo_loads (Some c) [1] (fst biology_cards) (snd biology_cards)
            new_world) = PNone
  /\ String.prefix (slice_to 200 prose_text) prose_text = true.
Proof.
  intros c.
  assert (H : demo_loads prose_text = inr "Expecting value: line 1 column 1 (char 0)")
    by reflexivity.
  split; [exact H|].
  destruct (C8_parse_failure_shows_prefix demo_loads c [1]
              (fst biology_cards) (snd biology_cards) new_world prose_text
              "Expecting value: line 1 column 1 (char 0)"
              (lookup_empty _) eq_refl H) as (Hgen & Hprefix & _).
  split; [now rewrite Hgen | exact Hprefix].
Defined.




(** ** Runs of the further properties *)

Lemma generate_api_error_witness :
  let c := scripted_client [ApiRaise "429 RESOURCE_EXHAUSTED"] in
  api_failure (c 0 (Request [1] (snd biology_cards) (fst biology_cards)))
  = Some "429 RESOURCE_EXHAUSTED"
  /\ fst (generate_content demo_loads (Some c) [1] (fst biology_cards) (snd biology_cards)
            new_world) = PNone.
Proof.
  intros c.
  assert (H : api_failure (c 0 (Request [1] (snd biology_cards) (fst biology_cards)))
              = Some "429 RESOURCE_EXHAUSTED") by reflexivity.
  split; [exact H|].
  now rewrite (generate_api_error_returns_none demo_loads c [1] (fst biology_cards)
                 (snd biology_cards) new_world "429 RESOURCE_EXHAUSTED" (lookup_empty _) H).
Defined.

Lemma clean_url_keeps_plain_witness :
  plain "https://youtu.be/abc" = true
  /\ clean_url "https://youtu.be/abc" = "https://youtu.be/abc".
Proof.
  split; [reflexivity|].
  exact (clean_url_keeps_plain "https://youtu.be/abc" eq_refl).
Defined.

Lemma clean_url_unwraps_quoted_witness :
  blank "  " = true /\ plain "https://youtu.be/abc" = true
  /\ blank (String newline EmptyString) = true
  /\ clean_url ("  " +:+ quoted "https://youtu.be/abc" +:+ String newline EmptyString)
     = "https://youtu.be/abc".
Proof.
  split; [reflexivity|]. split; [reflexivity|]. split; [reflexivity|].
  exact (clean_url_unwraps_quoted "  " "https://youtu.be/abc" (String newline EmptyString)
           eq_refl eq_refl eq_refl).
Defined.


Lemma video_tab_missing_key_witness :
  let s := Session (Image:=nat) true None PNone [1] "Biology" in
  has_key "video_url" [("video_search_query", PStr "mitosis")]
  && has_key "video_search_query" [("video_search_query", PStr "mitosis")] = false
  /\ fst (video_tab demo_loads None [1] "Biology"
            (s, cached_video (PDict [("video_search_query", PStr "mitosis")]))) = Ok tt.
Proof.
  intros s. split; [reflexivity|].
  now rewrite (video_tab_missing_key_warns demo_loads None [1] "Biology" s
                 (cached_video (PDict [("video_search_query", PStr "mitosis")]))
                 eq_refl
                 (or_intror (ex_intro _ [("video_search_query", PStr "mitosis")]
                               (conj eq_refl eq_refl)))).
Defined.

Lemma video_tab_url_not_a_string_witness :
  let s := Session (Image:=nat) true None PNone [1] "Biology" in
  (forall raw, PInt 5 <> PStr raw)
  /\ video_tab demo_loads None [1] "Biology" (s, cached_video number_url_payload)
     = (Raise (AttributeError "strip"),
        (s, st StHeader [Lit "Video Tutor"] (cached_video number_url_payload))).
Proof.
  intros s.
  assert (H : forall raw, PInt 5 <> PStr raw) by (intros raw; discriminate).
  split; [exact H|].
  exact (video_tab_url_not_a_string_raises demo_loads None [1] "Biology" s
           (cached_video number_url_payload)
           [("video_search_query", PStr "mitosis"); ("video_url", PInt 5)] (PInt 5)
           eq_refl eq_refl eq_refl H eq_refl).
Defined.


Lemma idle_rerun_witness :
  let s := fst (snd finished_run) in
  let w := snd (snd finished_run) in
  let out := script demo_loads demo_open (PassInput (Some four_answers_client) [demo_file]
                                            "Chemistry" false) (s, w) in
  all_cached (image_list s) (subject s) w
  /\ remote_log (snd (snd out)) = remote_log w
  /\ cache (snd (snd out)) = cache w.
Proof.
  intros s w out.
  assert (H : all_cached (image_list s) (subject s) w).
  { unfold all_cached, four_requests.
    repeat apply Forall_cons_2; try apply Forall_nil_2;
      vm_compute; eexists; reflexivity. }
  split; [exact H|].
  exact (idle_rerun_with_cached_results_is_free demo_loads demo_open
           (Some four_answers_client) [demo_file] "Chemistry" s w H).
Defined.

Lemma rerun_after_finished_analyze_witness :
  let second := script demo_loads demo_open
                  (PassInput (Some four_answers_client) [demo_file] "Chemistry" false)
                  (snd finished_run) in
  fst finished_run = Ok tt
  /\ remote_log (snd (snd second)) = remote_log (snd (snd finished_run))
  /\ cache (snd (snd second)) = cache (snd (snd finished_run)).
Proof.
  intros second.
  assert (H : fst finished_run = Ok tt) by (vm_compute; reflexivity).
  split; [exact H|].
  exact (rerun_after_finished_analyze_is_free demo_loads demo_open four_answers_client
           demo_file [] "Biology" new_session new_world
           (Some four_answers_client) [demo_file] "Chemistry" H).
Defined.
